(** * ape_geth.provider: connection lifecycle, tracing and snapshot control

    A shallow embedding of [src/ape_geth/provider.py].  Python objects are
    records, attribute mutation is explicit state passing, exceptions are the
    left summand of a result, and everything the module sends to the node or
    to the logger is appended to a trace that the theorems talk about. *)

From Stdlib Require Import ZArith List String Ascii Bool Lia.
From Stdlib Require Import HexadecimalString HexadecimalN DecimalString DecimalZ.
From Stdlib Require HexadecimalPos.
Import ListNotations.

Open Scope list_scope.
Open Scope string_scope.
Open Scope Z_scope.

Set Implicit Arguments.
Set Warnings "-register-all".

(* ===================================================================== *)
(** ** Python built-ins used by the module *)
(* ===================================================================== *)

Module Py.

(** [c.lower()] on one character: only [A]..[Z] move.  Version strings and
    host names are ASCII; code points above 127 are kept as they are. *)
Definition lower_char (c : ascii) : ascii :=
  let n := nat_of_ascii c in
  if (Nat.leb 65 n && Nat.leb n 90)%bool then ascii_of_nat (n + 32) else c.

(** [s.lower()] *)
Fixpoint lower (s : string) : string :=
  match s with
  | EmptyString => EmptyString
  | String c t => String (lower_char c) (lower t)
  end.

(** [s.startswith(p)] *)
Fixpoint startswith (p s : string) : bool :=
  match p, s with
  | EmptyString, _ => true
  | String _ _, EmptyString => false
  | String a p', String b s' => Ascii.eqb a b && startswith p' s'
  end.

(** [sub in s] *)
Fixpoint contains (sub s : string) : bool :=
  startswith sub s ||
  match s with
  | EmptyString => false
  | String _ t => contains sub t
  end.

(** [s[n:]] *)
Fixpoint drop (n : nat) (s : string) : string :=
  match n, s with
  | O, _ => s
  | S _, EmptyString => EmptyString
  | S k, String _ t => drop k t
  end.

(** [s.replace(old, "")] for a non-empty [old]: matches are found left to
    right and do not overlap.  The recursion is on the length of the text
    still to scan, which [fuel] bounds. *)
Fixpoint remove_all_fuel (fuel : nat) (old s : string) : string :=
  match fuel with
  | O => s
  | S k =>
      match s with
      | EmptyString => EmptyString
      | String c t =>
          if startswith old s
          then remove_all_fuel k old (drop (String.length old) s)
          else String c (remove_all_fuel k old t)
      end
  end.

Definition remove_all (old s : string) : string :=
  remove_all_fuel (String.length s) old s.

(** [s.split(sep)[0]] for a one-character separator *)
Fixpoint split_head (sep : ascii) (s : string) : string :=
  match s with
  | EmptyString => EmptyString
  | String c t => if Ascii.eqb c sep then EmptyString else String c (split_head sep t)
  end.

(** [c * n] for a one-character string [c] *)
Fixpoint repeat_char (c : ascii) (n : nat) : string :=
  match n with
  | O => EmptyString
  | S k => String c (repeat_char c k)
  end.

(** [hex(n)]: lower-case digits, no padding, sign before the prefix *)
Definition hex (n : Z) : string :=
  (if n <? 0 then "-0x" else "0x")
    ++ HexadecimalString.NilZero.string_of_uint (N.to_hex_uint (Z.abs_N n)).

(** [str(n)] for an [int] *)
Definition str (n : Z) : string :=
  DecimalString.NilZero.string_of_int (Z.to_int n).

(** Value of one hexadecimal digit, either case. *)
Definition hex_digit (c : ascii) : option Z :=
  let n := Z.of_nat (nat_of_ascii c) in
  if (48 <=? n) && (n <=? 57) then Some (n - 48)
  else if (97 <=? n) && (n <=? 102) then Some (n - 87)
  else if (65 <=? n) && (n <=? 70) then Some (n - 55)
  else None.

Definition is_space (c : ascii) : bool :=
  let n := nat_of_ascii c in
  (Nat.eqb n 32 || (Nat.leb 9 n && Nat.leb n 13) || (Nat.leb 28 n && Nat.leb n 31))%bool.

Fixpoint lstrip (s : string) : string :=
  match s with
  | String c t => if is_space c then lstrip t else s
  | EmptyString => EmptyString
  end.

(** Digits of [int(s, 16)] after sign and prefix: at least one digit, single
    underscores allowed between digits only, trailing white space allowed.
    [prev] tells whether the previous character was a digit. *)
Fixpoint hex_body (prev : bool) (acc : Z) (s : string) : option Z :=
  match s with
  | EmptyString => if prev then Some acc else None
  | String c t =>
      match hex_digit c with
      | Some d => hex_body true (16 * acc + d) t
      | None =>
          if Ascii.eqb c "_" then
            if prev then
              match t with
              | String c' _ =>
                  match hex_digit c' with
                  | Some _ => hex_body false acc t
                  | None => None
                  end
              | EmptyString => None
              end
            else None
          else if is_space c then
            if prev then
              match lstrip t with
              | EmptyString => Some acc
              | String _ _ => None
              end
            else None
          else None
      end
  end.

(** [int(s, 16)]; [None] stands for [ValueError]. *)
Definition int16 (s : string) : option Z :=
  let s0 := lstrip s in
  let '(neg, s1) :=
    match s0 with
    | String "-" t => (true, t)
    | String "+" t => (false, t)
    | _ => (false, s0)
    end in
  let s2 :=
    if startswith "0x" s1 || startswith "0X" s1 then
      match drop 2 s1 with
      | String "_" t => t
      | t => t
      end
    else s1 in
  match hex_body false 0 s2 with
  | Some v => Some (if neg then - v else v)
  | None => None
  end.

(** [bytes.hex()]: two lower-case digits per byte (a byte is [0..255]). *)
Definition nibble (n : Z) : ascii :=
  ascii_of_nat (Z.to_nat (if n <? 10 then 48 + n else 87 + n)).

Fixpoint bytes_hex (b : list Z) : string :=
  match b with
  | [] => EmptyString
  | x :: t => String (nibble (x / 16)) (String (nibble (x mod 16)) (bytes_hex t))
  end.

End Py.

(** ** eth_utils helpers *)

(** [eth_utils.add_0x_prefix] *)
Definition add_0x_prefix (value : string) : string :=
  if Py.startswith "0x" value || Py.startswith "0X" value then value
  else "0x" ++ value.

(** [eth_utils.to_hex] on an [int] *)
Definition to_hex (n : Z) : string := Py.hex n.

(* ===================================================================== *)
(** ** Exceptions, JSON values, log records *)
(* ===================================================================== *)

(** The exception classes that the module raises, catches or lets through. *)
Inductive exn_class : Type :=
| ValueError
| TypeError
| ProviderError
| APINotImplementedError
| NetworkMismatchError
| ConnectionError
| GethNotInstalledError
| ExtraDataLengthError
| ProviderNotConnectedError
| CannotHandleRequest
| HTTPError.

Definition exn_class_eqb (a b : exn_class) : bool :=
  match a, b with
  | ValueError, ValueError | TypeError, TypeError
  | ProviderError, ProviderError
  | APINotImplementedError, APINotImplementedError
  | NetworkMismatchError, NetworkMismatchError
  | ConnectionError, ConnectionError
  | GethNotInstalledError, GethNotInstalledError
  | ExtraDataLengthError, ExtraDataLengthError
  | ProviderNotConnectedError, ProviderNotConnectedError
  | CannotHandleRequest, CannotHandleRequest
  | HTTPError, HTTPError => true
  | _, _ => false
  end.

(** [issubclass a b]: [GethNotInstalledError] derives from [ConnectionError]
    (line 211); in [ape.exceptions], [ProviderNotConnectedError] and
    [NetworkMismatchError] derive from [ProviderError]. *)
Definition issubclass (a b : exn_class) : bool :=
  exn_class_eqb a b ||
  match a, b with
  | GethNotInstalledError, ConnectionError => true
  | ProviderNotConnectedError, ProviderError => true
  | NetworkMismatchError, ProviderError => true
  | _, _ => false
  end.

Record exn : Type := Raise { exn_cls : exn_class; exn_msg : string }.

(** [except (c1, c2, ...)] *)
Definition caught_by (classes : list exn_class) (e : exn) : bool :=
  existsb (issubclass (exn_cls e)) classes.

Inductive json : Type :=
| JNull
| JBool (b : bool)
| JNum (n : Z)
| JStr (s : string)
| JArr (items : list json)
| JObj (fields : list (string * json)).

(** Python truth value of a decoded JSON value ([if not result]). *)
Definition truthy (v : json) : bool :=
  match v with
  | JNull => false
  | JBool b => b
  | JNum n => negb (n =? 0)
  | JStr s => negb (String.eqb s "")
  | JArr l => match l with [] => false | _ => true end
  | JObj l => match l with [] => false | _ => true end
  end.

Inductive level : Type := DEBUG | INFO | WARNING | ERROR.

Record log_record : Type := Log { log_level : level; log_text : string }.

(** One JSON-RPC request as handed to [_make_request]. *)
Record request : Type := Request { endpoint : string; parameters : list json }.

Definition result (A : Type) : Type := (exn + A)%type.

(** ** A state-and-exception monad for method bodies *)

Definition State (S A : Type) : Type := S -> result A * S.

Definition ret {S A} (a : A) : State S A := fun w => (inr a, w).

Definition raise {S A} (c : exn_class) (msg : string) : State S A :=
  fun w => (inl (Raise c msg), w).

Definition reraise {S A} (e : exn) : State S A := fun w => (inl e, w).

Definition bind {S A B} (m : State S A) (k : A -> State S B) : State S B :=
  fun w =>
    match m w with
    | (inr a, w') => k a w'
    | (inl e, w') => (inl e, w')
    end.

(** [try: m  except classes as err: handler err]; state changes made before
    the exception was raised stay. *)
Definition try_except {S A} (m : State S A) (classes : list exn_class)
    (handler : exn -> State S A) : State S A :=
  fun w =>
    match m w with
    | (inl e, w') => if caught_by classes e then handler e w' else (inl e, w')
    | ok => ok
    end.

Definition lift {S A} (r : result A) : State S A := fun w => (r, w).

Declare Scope py_scope.
Delimit Scope py_scope with py.
Notation "x <- m ;; k" := (bind m (fun x => k))
  (at level 61, m at next level, right associativity) : py_scope.
Notation "m ;; k" := (bind m (fun _ => k))
  (at level 61, right associativity) : py_scope.
Open Scope py_scope.

(* ===================================================================== *)
(** ** The node, the web3 handle and the provider object *)
(* ===================================================================== *)

(** What [web3.eth.chain_id] gives: the id, or a [ValueError] whose first
    argument is a dict (with or without a ["message"]) or is something else. *)
Inductive chain_id_answer : Type :=
| ChainId (n : Z)
| ChainIdErrorDict (message : option string)
| ChainIdError.

(** What [web3.eth.get_block("latest")] gives at connect time: an
    [ExtraDataLengthError], or a block of which the module looks at the
    presence of [proofOfAuthorityData] and the length of [extraData]. *)
Inductive block_answer : Type :=
| BlockExtraDataTooLong
| Block (proofOfAuthorityData : bool) (extraData_len : Z).

(** A node as the module observes it.  [answer] is [Web3Provider._make_request]
    of ape core: the decoded result, or the exception it raises. *)
Record node : Type := Node {
  node_client_version : string;
  node_chain_id : chain_id_answer;
  node_latest : block_answer;
  node_head : option Z;
  answer : request -> result json
}.

(** The [Web3] handle built by [_create_web3]; [remote] is the node that the
    [AutoProvider] reaches, if any. *)
Record web3 : Type := Web3 {
  remote : option node;
  middleware_onion : list string;
  gas_price_strategy : option string
}.

(** [web3.middleware.validation.MAX_EXTRADATA_LENGTH] *)
Definition MAX_EXTRADATA_LENGTH : Z := 32.

Definition geth_poa_middleware : string := "geth_poa_middleware".
Definition rpc_gas_price_strategy : string := "rpc_gas_price_strategy".

(** Instance attributes of a [BaseGethProvider].  [block_page_size] and
    [concurrency] start from the class attributes (lines 226-227). *)
Record provider : Type := Provider {
  _web3 : option web3;
  _client_version : option string;
  block_page_size : Z;
  concurrency : Z;
  network_chain_id : option Z
}.

(** The provider together with what surrounds it: the node listening at
    [self.uri] (if any), the uri without credentials, the path of the IPC
    file when it exists, the requests sent so far (oldest first) and the
    log. *)
Record world : Type := World {
  self : provider;
  listening : option node;
  _clean_uri : string;
  ipc_file : option string;
  sent : list request;
  logged : list log_record
}.

Definition fresh_provider (chain : option Z) : provider :=
  {| _web3 := None; _client_version := None;
     block_page_size := 5000; concurrency := 16;
     network_chain_id := chain |}.

Definition set_self (p : provider) (w : world) : world :=
  {| self := p; listening := listening w; _clean_uri := _clean_uri w;
     ipc_file := ipc_file w; sent := sent w; logged := logged w |}.

Definition add_sent (r : request) (w : world) : world :=
  {| self := self w; listening := listening w; _clean_uri := _clean_uri w;
     ipc_file := ipc_file w; sent := (sent w ++ [r])%list; logged := logged w |}.

Definition add_logged (r : log_record) (w : world) : world :=
  {| self := self w; listening := listening w; _clean_uri := _clean_uri w;
     ipc_file := ipc_file w; sent := sent w; logged := (logged w ++ [r])%list |}.

(** The world when another node (or none) answers at the uri. *)
Definition set_listening (n : option node) (w : world) : world :=
  {| self := self w; listening := n; _clean_uri := _clean_uri w;
     ipc_file := ipc_file w; sent := sent w; logged := logged w |}.

(** Method bodies of the provider classes run over a [world]. *)
Definition M : Type -> Type := State world.

Definition get_self : M provider := fun w => (inr (self w), w).
Definition put_self (p : provider) : M unit := fun w => (inr tt, set_self p w).

Definition logger (l : level) (text : string) : M unit :=
  fun w => (inr tt, add_logged (Log l text) w).


(** The interface of the [evm_trace] package and of
    [Web3Provider._create_call_tree_node]: decoders from node output to call
    trees.  Each may raise (pydantic's validation error is a [ValueError]). *)
Class EvmTrace : Type := {
  ParityTraceList : Type;
  EvmCallTreeNode : Type;
  CallTreeNode : Type;
  parse_obj : json -> result ParityTraceList;
  get_calltree_from_parity_trace : ParityTraceList -> result EvmCallTreeNode;
  get_calltree_from_geth_call_trace : json -> result EvmCallTreeNode;
  _create_call_tree_node : EvmCallTreeNode -> option string -> result CallTreeNode
}.

(** [_create_web3] (line 568): a handle over whatever answers at the uri. *)
Definition _create_web3 : M web3 :=
  fun w => (inr {| remote := listening w; middleware_onion := [];
                   gas_price_strategy := None |}, w).

(* ===================================================================== *)
(** ** class BaseGethProvider *)
(* ===================================================================== *)

Module BaseGethProvider.

Definition with_web3 (h : option web3) (p : provider) : provider :=
  {| _web3 := h; _client_version := _client_version p;
     block_page_size := block_page_size p; concurrency := concurrency p;
     network_chain_id := network_chain_id p |}.

Definition with_client_version (v : option string) (p : provider) : provider :=
  {| _web3 := _web3 p; _client_version := v;
     block_page_size := block_page_size p; concurrency := concurrency p;
     network_chain_id := network_chain_id p |}.

Definition with_concurrency (n : Z) (p : provider) : provider :=
  {| _web3 := _web3 p; _client_version := _client_version p;
     block_page_size := block_page_size p; concurrency := n;
     network_chain_id := network_chain_id p |}.

Definition with_block_page_size (n : Z) (p : provider) : provider :=
  {| _web3 := _web3 p; _client_version := _client_version p;
     block_page_size := n; concurrency := concurrency p;
     network_chain_id := network_chain_id p |}.

(** Modelled from the spec: the [web3] property of ape core's
    [Web3Provider] is not under src/; it hands out the live client handle
    of the connection and fails when there is none. *)
Definition web3_ : M web3 :=
  p <- get_self ;;
  match _web3 p with
  | Some h => ret h
  | None => raise ProviderNotConnectedError "Not connected to a network provider."
  end.

(** The node behind the handle; a handle that reaches nothing cannot
    handle a request. *)
Definition remote_node : M node :=
  h <- web3_ ;;
  match remote h with
  | Some n => ret n
  | None => raise CannotHandleRequest "Could not discover provider while making request"
  end.

(** Modelled from the spec: the [is_connected] property of ape core's
    [Web3Provider] is not under src/; a connection is live when a handle
    exists and a node answers it. *)
Definition is_connected : M bool :=
  p <- get_self ;;
  ret (match _web3 p with
       | Some h => match remote h with Some _ => true | None => false end
       | None => false
       end).

(** Modelled from the spec: the [client_version] property of ape core's
    [Web3Provider] is not under src/; it fetches the client's self-reported
    version string once per connection and keeps it in [_client_version]
    (the cache that lines 265 and 319 clear); without a handle it is the
    empty string. *)
Definition client_version : M string :=
  p <- get_self ;;
  match _web3 p with
  | None => ret ""
  | Some _ =>
      match _client_version p with
      | Some v => ret v
      | None =>
          n <- remote_node ;;
          put_self (with_client_version (Some (node_client_version n)) p) ;;
          ret (node_client_version n)
      end
  end.

(** Modelled from the spec: [Web3Provider._make_request] of ape core is not
    under src/; it sends one RPC request to the node and returns the result
    or raises the node's error.  The request is recorded in [sent]. *)
Definition super_make_request (endpoint : string) (parameters : list json) : M json :=
  n <- remote_node ;;
  fun w => (answer n (Request endpoint parameters),
            add_sent (Request endpoint parameters) w).

(** lines 264-266 *)
Definition _set_web3 : M unit :=
  p <- get_self ;;
  put_self (with_client_version None p) ;;
  h <- _create_web3 ;;
  p <- get_self ;;
  put_self (with_web3 (Some h) p).

(** lines 357-364 *)
Definition _log_connection (client_name : string) : M unit :=
  fun w =>
    let msg := "Connecting to existing " ++ client_name ++ " node at " in
    let suffix :=
      match ipc_file w with
      | Some path => path
      | None => _clean_uri w
      end in
    logger INFO (msg ++ " " ++ suffix ++ ".") w.

(** lines 269-281 of [_complete_connect]: tuning by client name. *)
Definition _complete_connect_tune : M unit :=
  v <- client_version ;;
  if Py.contains "geth" (Py.lower v) then
    _log_connection "Geth"
  else
    v <- client_version ;;
    if Py.contains "erigon" (Py.lower v) then
      _log_connection "Erigon" ;;
      p <- get_self ;; put_self (with_concurrency 8 p) ;;
      p <- get_self ;; put_self (with_block_page_size 40000 p)
    else
      v <- client_version ;;
      if Py.contains "nethermind" (Py.lower v) then
        _log_connection "Nethermind" ;;
        p <- get_self ;; put_self (with_concurrency 32 p) ;;
        p <- get_self ;; put_self (with_block_page_size 50000 p)
      else
        v <- client_version ;;
        let client_name := Py.split_head "/" v in
        logger WARNING
          ("Connecting Geth plugin to non-Geth client '" ++ client_name ++ "'.").

(** [web3.middleware_onion.inject(m, layer=0)]: adding the same middleware
    twice is a [ValueError]. *)
Definition inject (m : string) : M unit :=
  h <- web3_ ;;
  if existsb (String.eqb m) (middleware_onion h) then
    raise ValueError "You can't add the same un-named instance twice"
  else
    p <- get_self ;;
    put_self (with_web3 (Some {| remote := remote h;
                                 middleware_onion := m :: middleware_onion h;
                                 gas_price_strategy := gas_price_strategy h |}) p).

Definition set_gas_price_strategy (g : string) : M unit :=
  h <- web3_ ;;
  p <- get_self ;;
  put_self (with_web3 (Some {| remote := remote h;
                               middleware_onion := middleware_onion h;
                               gas_price_strategy := Some g |}) p).

(** Modelled from the spec: [NetworkAPI.verify_chain_id] of ape core is not
    under src/; it cross-checks the reported chain id against the caller's
    expected network identity, and a mismatch is fatal.  [None] is a
    network that expects no particular id. *)
Definition verify_chain_id (chain_id : Z) : M unit :=
  p <- get_self ;;
  match network_chain_id p with
  | Some expected =>
      if expected =? chain_id then ret tt
      else raise NetworkMismatchError "Provider connected to the wrong chain."
  | None => ret tt
  end.

(** lines 283-315 of [_complete_connect]: chain checks and the PoA shim. *)
Definition _complete_connect_checks : M unit :=
  set_gas_price_strategy rpc_gas_price_strategy ;;
  n <- remote_node ;;
  chain_id <-
    match node_chain_id n with
    | ChainId c => ret c
    | ChainIdErrorDict (Some m) => raise ProviderError m
    | ChainIdErrorDict None => raise ProviderError "None"
    | ChainIdError => raise ProviderError "Error getting chain id."
    end ;;
  let is_likely_poa :=
    match node_latest n with
    | BlockExtraDataTooLong => true
    | Block poa len => poa || (len >? MAX_EXTRADATA_LENGTH)
    end in
  (if is_likely_poa then
     try_except (inject geth_poa_middleware) [ValueError]
       (fun err =>
          if Py.contains "You can't add the same un-named instance twice" (exn_msg err)
          then ret tt
          else reraise err)
   else ret tt) ;;
  verify_chain_id chain_id.

(** lines 268-315 *)
Definition _complete_connect : M unit :=
  _complete_connect_tune ;;
  _complete_connect_checks.

(** lines 317-319 *)
Definition disconnect : M unit :=
  p <- get_self ;;
  put_self (with_web3 None p) ;;
  p <- get_self ;;
  put_self (with_client_version None p).

(** lines 366-375 *)
Definition _make_request (endpoint : string) (parameters : list json) : M json :=
  try_except (super_make_request endpoint parameters) [ProviderError]
    (fun err =>
       if Py.contains "does not exist/is not available" (exn_msg err) then
         raise APINotImplementedError
           ("RPC method '" ++ endpoint ++ "' is not implemented by this node instance.")
       else reraise err).

(** lines 328-331 *)
Definition _get_transaction_trace_using_call_tracer (txn_hash : string) : M json :=
  _make_request "debug_traceTransaction"
    [JStr txn_hash;
     JObj [("enableMemory", JBool true); ("tracer", JStr "callTracer")]].

Section CallTrees.
Context `{EvmTrace}.

(** lines 343-350 *)
Definition _get_parity_call_tree (txn_hash : string) : M CallTreeNode :=
  result <- _make_request "trace_transaction" [JStr txn_hash] ;;
  if negb (truthy result) then
    raise ProviderError ("Failed to get trace for '" ++ txn_hash ++ "'.")
  else
    traces <- lift (parse_obj result) ;;
    evm_call <- lift (get_calltree_from_parity_trace traces) ;;
    lift (_create_call_tree_node evm_call (Some txn_hash)).

(** lines 352-355 *)
Definition _get_geth_call_tree (txn_hash : string) : M CallTreeNode :=
  calls <- _get_transaction_trace_using_call_tracer txn_hash ;;
  evm_call <- lift (get_calltree_from_geth_call_trace calls) ;;
  lift (_create_call_tree_node evm_call (Some txn_hash)).

(** lines 333-341 *)
Definition get_call_tree (txn_hash : string) : M CallTreeNode :=
  v <- client_version ;;
  if Py.contains "erigon" (Py.lower v) then
    _get_parity_call_tree txn_hash
  else
    try_except (_get_parity_call_tree txn_hash)
      [ValueError; APINotImplementedError; ProviderError]
      (fun _ => _get_geth_call_tree txn_hash).
End CallTrees.

End BaseGethProvider.

(* ===================================================================== *)
(** ** class Geth *)
(* ===================================================================== *)

Module Geth.

(** lines 560-565 *)
Definition connect : M unit :=
  BaseGethProvider._set_web3 ;;
  connected <- BaseGethProvider.is_connected ;;
  if negb connected then
    fun w => raise ProviderError ("No node found on '" ++ _clean_uri w ++ "'.") w
  else
    BaseGethProvider._complete_connect.

End Geth.

(* ===================================================================== *)
(** ** class GethDev: snapshot, revert and tracing *)
(* ===================================================================== *)

(** [SnapshotID] is [Union[str, int, bytes]]; a byte is in [0..255]. *)
Inductive SnapshotID : Type :=
| SnapInt (n : Z)
| SnapBytes (b : list Z)
| SnapStr (s : string).

Module GethDev.

(** Modelled from the spec: [Web3Provider.get_block] of ape core is not
    under src/; [get_block("latest").number] is the block number of the
    current chain head (an [Optional[int]]). *)
Definition latest_number : M (option Z) :=
  n <- BaseGethProvider.remote_node ;;
  ret (node_head n).

(** [number or 0] *)
Definition or_0 (number : option Z) : Z :=
  match number with
  | Some n => if n =? 0 then 0 else n
  | None => 0
  end.

(** lines 444-445 *)
Definition snapshot : M SnapshotID :=
  number <- latest_number ;;
  ret (SnapInt (or_0 number)).

Definition int16_or_raise (s : string) : M Z :=
  match Py.int16 s with
  | Some n => ret n
  | None => raise ValueError ("invalid literal for int() with base 16: '" ++ s ++ "'")
  end.

(** [block_number_int == current_block] *)
Definition eq_number (n : Z) (current : option Z) : bool :=
  match current with
  | Some c => n =? c
  | None => false
  end.

(** lines 447-466 *)
Definition revert (snapshot_id : SnapshotID) : M unit :=
  ids <-
    match snapshot_id with
    | SnapInt n =>
        let block_number_int := n in
        let block_number_hex_str := to_hex n in
        ret (block_number_int, block_number_hex_str)
    | SnapBytes b =>
        let block_number_hex_str := add_0x_prefix (Py.bytes_hex b) in
        block_number_int <- int16_or_raise block_number_hex_str ;;
        ret (block_number_int, block_number_hex_str)
    | SnapStr s =>
        let block_number_hex_str := add_0x_prefix s in
        block_number_int <- int16_or_raise s ;;
        ret (block_number_int, block_number_hex_str)
    end ;;
  let block_number_int := fst ids in
  let block_number_hex_str := snd ids in
  current_block <- latest_number ;;
  if eq_number block_number_int current_block then
    ret tt
  else if block_number_int >? block_number_int then
    logger ERROR "Unable to set head to future block." ;;
    ret tt
  else
    BaseGethProvider._make_request "debug_setHead" [JStr block_number_hex_str] ;;
    ret tt.

(** lines 468-474: [@raises_not_implemented] *)
Definition set_timestamp (new_timestamp : Z) : M unit :=
  raise APINotImplementedError "Attempted to call method 'set_timestamp', method not supported.".

Definition mine (num_blocks : Z) : M unit :=
  raise APINotImplementedError "Attempted to call method 'mine', method not supported.".

Section CallTrees.
Context `{EvmTrace}.

(** lines 551-552.  [_get_geth_call_tree] takes no keyword arguments, so
    passing any on is a [TypeError]. *)
Definition get_call_tree (txn_hash : string) (root_node_kwargs : list (string * json))
  : M CallTreeNode :=
  match root_node_kwargs with
  | [] => BaseGethProvider._get_geth_call_tree txn_hash
  | (k, _) :: _ =>
      raise TypeError
        ("_get_geth_call_tree() got an unexpected keyword argument '" ++ k ++ "'")
  end.
End CallTrees.

End GethDev.

(* ===================================================================== *)
(** ** class GethDevProcess: the supervised development node *)
(* ===================================================================== *)

Definition DEFAULT_PORT : Z := 8545.
Definition DEFAULT_HOSTNAME : string := "localhost".
Definition GETH_DEV_CHAIN_ID : Z := 1337.

(** [to_wei(10000, "ether")] *)
Definition default_initial_balance : Z := 10000 * 10 ^ 18.

(** The keyword arguments built by [construct_test_chain_kwargs] (lines
    80-91) and extended with [miner_etherbase] (line 97). *)
Record geth_kwargs : Type := GethKwargs {
  kw_data_dir : string;
  geth_executable : option string;
  rpc_addr : option string;
  rpc_port : Z;
  network_id : Z;
  ws_enabled : bool;
  ws_addr : option string;
  ws_origins : option string;
  ws_port : option string;
  ws_api : option string;
  miner_etherbase : option string
}.

Record account : Type := Account { address : string; private_key : string }.

(** The collaborators of the supervisor: py-geth's account helper, ape's
    account generator and ape's defaults for it. *)
Class GethTools : Type := {
  ensure_account_exists : geth_kwargs -> string;
  generate_dev_accounts : string -> Z -> list account;
  DEFAULT_TEST_MNEMONIC : string;
  DEFAULT_NUMBER_OF_TEST_ACCOUNTS : Z
}.

(** The machine as the supervisor sees it: whether a geth executable is on
    the path, the directories that exist, the chains initialised so far
    (genesis document and arguments), the child processes started with
    [Popen] and the exit handlers registered. *)
Record os : Type := OS {
  geth_on_path : bool;
  directories : list string;
  chains : list (json * geth_kwargs);
  children : list geth_kwargs;
  atexit : list string;
  os_logged : list log_record
}.

Record parsed_uri : Type := URL { host : option string; port : option Z }.

(** The keyword arguments [from_uri] looks at. *)
Record from_uri_kwargs : Type := Kwargs {
  kw_mnemonic : option string;
  kw_number_of_accounts : option Z;
  kw_executable : option string
}.

Module GethDevProcess.

Record t : Type := Process {
  data_dir : string;
  _hostname : option string;
  _port : Z;
  is_running : bool;
  geth_kwargs_ : geth_kwargs;
  proc : option geth_kwargs
}.

Definition P : Type -> Type := State os.

Definition under (dir path : string) : bool :=
  String.eqb dir path || Py.startswith (dir ++ "/") path.

(** [path.mkdir(exist_ok=True, parents=True)] *)
Definition mkdir (path : string) : P unit :=
  fun o => (inr tt,
            {| geth_on_path := geth_on_path o;
               directories :=
                 if existsb (String.eqb path) (directories o) then directories o
                 else path :: directories o;
               chains := chains o; children := children o; atexit := atexit o;
               os_logged := os_logged o |}).

(** [shutil.rmtree(path)] *)
Definition rmtree (path : string) : P unit :=
  fun o => (inr tt,
            {| geth_on_path := geth_on_path o;
               directories := filter (fun d => negb (under path d)) (directories o);
               chains := chains o; children := children o; atexit := atexit o;
               os_logged := os_logged o |}).

Definition exists_ (path : string) : P bool :=
  fun o => (inr (existsb (String.eqb path) (directories o)), o).

(** lines 186-188 *)
Definition _clean (data_dir : string) : P unit :=
  e <- exists_ data_dir ;;
  if e then rmtree data_dir else ret tt.

(** [initialize_chain(genesis_data, **geth_kwargs)] *)
Definition initialize_chain (genesis_data : json) (kw : geth_kwargs) : P unit :=
  fun o => (inr tt,
            {| geth_on_path := geth_on_path o; directories := directories o;
               chains := (chains o ++ [(genesis_data, kw)])%list;
               children := children o; atexit := atexit o;
               os_logged := os_logged o |}).

Definition with_miner_etherbase (sealer : string) (kw : geth_kwargs) : geth_kwargs :=
  {| kw_data_dir := kw_data_dir kw; geth_executable := geth_executable kw;
     rpc_addr := rpc_addr kw; rpc_port := rpc_port kw; network_id := network_id kw;
     ws_enabled := ws_enabled kw; ws_addr := ws_addr kw; ws_origins := ws_origins kw;
     ws_port := ws_port kw; ws_api := ws_api kw; miner_etherbase := Some sealer |}.

(** [str(initial_balance)] for a [Union[str, int]] *)
Definition str_balance (initial_balance : Z + string) : string :=
  match initial_balance with
  | inl n => Py.str n
  | inr s => s
  end.

(** lines 99-122 *)
Definition genesis_data (chain_id : Z) (sealer : string) (accounts : list account)
    (initial_balance : Z + string) : json :=
  JObj [
    ("overwrite", JBool true);
    ("coinbase", JStr "0x0000000000000000000000000000000000000000");
    ("difficulty", JStr "0x0");
    ("extraData",
      JStr ("0x" ++ Py.repeat_char "0" 64 ++ sealer ++ Py.repeat_char "0" 130));
    ("config", JObj [
      ("chainId", JNum chain_id);
      ("gasLimit", JNum 0);
      ("homesteadBlock", JNum 0);
      ("difficulty", JStr "0x0");
      ("eip150Block", JNum 0);
      ("eip155Block", JNum 0);
      ("eip158Block", JNum 0);
      ("byzantiumBlock", JNum 0);
      ("constantinopleBlock", JNum 0);
      ("petersburgBlock", JNum 0);
      ("istanbulBlock", JNum 0);
      ("berlinBlock", JNum 0);
      ("londonBlock", JNum 0);
      ("parisBlock", JNum 0);
      ("clique", JObj [("period", JNum 0); ("epoch", JNum 30000)])
    ]);
    ("alloc",
      JObj (map (fun a => (address a, JObj [("balance", JStr (str_balance initial_balance))]))
                accounts))
  ].

(** lines 80-91: the arguments the module hands to py-geth's
    [construct_test_chain_kwargs], as a record. *)
Definition construct_test_chain_kwargs (data_dir : string)
    (geth_executable : option string) (rpc_addr : option string) (rpc_port : Z)
    (network_id : Z) : geth_kwargs :=
  {| kw_data_dir := data_dir; geth_executable := geth_executable;
     rpc_addr := rpc_addr; rpc_port := rpc_port; network_id := network_id;
     ws_enabled := false; ws_addr := None; ws_origins := None;
     ws_port := None; ws_api := None; miner_etherbase := None |}.

Section Tools.
Context `{GethTools}.

(** lines 60-135 *)
Definition __init__ (data_dir : string) (hostname : option string) (port : Z)
    (mnemonic : string) (number_of_accounts : Z) (chain_id : Z)
    (initial_balance : Z + string) (executable : option string) : P t :=
  fun o =>
    (if negb (geth_on_path o) then
       raise GethNotInstalledError
         "geth is not installed and there is no local provider running."
     else
       mkdir data_dir ;;
       let geth_kwargs :=
         construct_test_chain_kwargs data_dir executable hostname port chain_id in
       _clean data_dir ;;
       let sealer := Py.remove_all "0x" (ensure_account_exists geth_kwargs) in
       let geth_kwargs := with_miner_etherbase sealer geth_kwargs in
       let accounts := generate_dev_accounts mnemonic number_of_accounts in
       let genesis := genesis_data chain_id sealer accounts initial_balance in
       initialize_chain genesis geth_kwargs ;;
       mkdir data_dir ;;
       mkdir (data_dir ++ "/geth-logs") ;;
       ret {| data_dir := data_dir; _hostname := hostname; _port := port;
              is_running := false; geth_kwargs_ := geth_kwargs; proc := None |}) o.

Definition is_local (h : option string) : bool :=
  match h with
  | Some name => String.eqb name "localhost" || String.eqb name "127.0.0.1"
  | None => false
  end.

Definition show_host (h : option string) : string :=
  match h with
  | Some name => name
  | None => "None"
  end.

(** lines 137-154; [parsed_uri] is [URL(uri)]. *)
Definition from_uri (parsed_uri : parsed_uri) (data_folder : string)
    (kwargs : from_uri_kwargs) : P t :=
  if negb (is_local (host parsed_uri)) then
    raise ConnectionError
      ("Unable to start Geth on non-local host " ++ show_host (host parsed_uri) ++ ".")
  else
    let port :=
      match port parsed_uri with
      | Some p => p
      | None => DEFAULT_PORT
      end in
    let mnemonic :=
      match kw_mnemonic kwargs with
      | Some m => m
      | None => DEFAULT_TEST_MNEMONIC
      end in
    let number_of_accounts :=
      match kw_number_of_accounts kwargs with
      | Some n => n
      | None => DEFAULT_NUMBER_OF_TEST_ACCOUNTS
      end in
    __init__ data_folder (host parsed_uri) port mnemonic number_of_accounts
             GETH_DEV_CHAIN_ID (inl default_initial_balance) (kw_executable kwargs).
End Tools.

(** lines 166-177 *)
Definition start (self : t) : P t :=
  if is_running self then ret self
  else
    fun o =>
      (inr {| data_dir := data_dir self; _hostname := _hostname self;
              _port := _port self; is_running := true;
              geth_kwargs_ := geth_kwargs_ self;
              proc := Some (geth_kwargs_ self) |},
       {| geth_on_path := geth_on_path o; directories := directories o;
          chains := chains o;
          children := (children o ++ [geth_kwargs_ self])%list;
          atexit := atexit o; os_logged := os_logged o |}).

(** [logger.info] from inside the supervisor *)
Definition log_info (text : string) : P unit :=
  fun o => (inr tt,
            {| geth_on_path := geth_on_path o; directories := directories o;
               chains := chains o; children := children o; atexit := atexit o;
               os_logged := (os_logged o ++ [Log INFO text])%list |}).

(** [atexit.register(f)] *)
Definition atexit_register (f : string) : P unit :=
  fun o => (inr tt,
            {| geth_on_path := geth_on_path o; directories := directories o;
               chains := chains o; children := children o;
               atexit := (atexit o ++ [f])%list;
               os_logged := os_logged o |}).

Definition option_eqb {A : Type} (eqb : A -> A -> bool) (a b : option A) : bool :=
  match a, b with
  | Some x, Some y => eqb x y
  | None, None => true
  | _, _ => false
  end.

(** Child processes are told apart by their arguments. *)
Definition geth_kwargs_eqb (a b : geth_kwargs) : bool :=
  String.eqb (kw_data_dir a) (kw_data_dir b)
  && option_eqb String.eqb (geth_executable a) (geth_executable b)
  && option_eqb String.eqb (rpc_addr a) (rpc_addr b)
  && (rpc_port a =? rpc_port b)
  && (network_id a =? network_id b)
  && Bool.eqb (ws_enabled a) (ws_enabled b)
  && option_eqb String.eqb (ws_addr a) (ws_addr b)
  && option_eqb String.eqb (ws_origins a) (ws_origins b)
  && option_eqb String.eqb (ws_port a) (ws_port b)
  && option_eqb String.eqb (ws_api a) (ws_api b)
  && option_eqb String.eqb (miner_etherbase a) (miner_etherbase b).

(** [kill_proc(proc)] when the process is still alive *)
Fixpoint kill (proc : geth_kwargs) (running : list geth_kwargs) : list geth_kwargs :=
  match running with
  | [] => []
  | p :: rest => if geth_kwargs_eqb proc p then rest else p :: kill proc rest
  end.

(** py-geth's [BaseGethProcess.stop], which the class inherits: stopping
    what is not running is a [ValueError]; otherwise the child is killed
    if it is still alive and the flag is cleared. *)
Definition stop (self : t) : P t :=
  if negb (is_running self) then raise ValueError "Not running"
  else
    fun o =>
      (inr {| data_dir := data_dir self; _hostname := _hostname self;
              _port := _port self; is_running := false;
              geth_kwargs_ := geth_kwargs_ self; proc := proc self |},
       {| geth_on_path := geth_on_path o; directories := directories o;
          chains := chains o;
          children :=
            match proc self with
            | Some p => kill p (children o)
            | None => children o
            end;
          atexit := atexit o; os_logged := os_logged o |}).

(** lines 156-164; [ipc_path] is the text of [self.ipc_path] with the home
    directory replaced, and [wait_for_rpc] what py-geth's
    [wait_for_rpc(timeout=60)] does: return, or raise when the endpoint
    does not come up in time. *)
Definition connect (ipc_path : string) (wait_for_rpc : result unit) (self : t) : P t :=
  log_info ("Starting geth (HTTP='" ++ show_host (_hostname self) ++ ":"
              ++ Py.str (_port self) ++ "', IPC=" ++ ipc_path ++ ").") ;;
  self <- start self ;;
  lift wait_for_rpc ;;
  atexit_register "disconnect" ;;
  ret self.

(** lines 179-184 *)
Definition disconnect (self : t) : P t :=
  self <- (if is_running self then
             log_info "Stopping 'geth' process." ;;
             stop self
           else ret self) ;;
  _clean (data_dir self) ;;
  ret self.

End GethDevProcess.

(* ===================================================================== *)
(** ** BaseGethProvider._stream_request: the streaming reader *)
(* ===================================================================== *)

Definition bytes : Type := list Z.

(** The interface of [ijson] the reader uses: [items_coro results iter_path]
    is a coroutine; sending it a chunk moves it to a new state and completes
    some items, which it appends to [results]. *)
Class Ijson : Type := {
  item : Type;
  coro : Type;
  items_coro : string -> coro;
  send : coro -> bytes -> coro * list item
}.

(** [requests.post(..., stream=True)]: the status and the chunks that
    [iter_content] delivers, in order; a delivered chunk is never empty. *)
Record response : Type := Response { status_code : Z; iter_content : list bytes }.

(** [resp.raise_for_status()] *)
Definition raise_for_status (resp : response) : result unit :=
  if (400 <=? status_code resp) && (status_code resp <? 600)
  then inl (Raise HTTPError "HTTP error status")
  else inr tt.

Module StreamRequest.
Section Reader.
Context `{Ijson}.

(** The generator object of [_stream_request] between two [next] calls:
    not started yet; suspended at a [yield] inside [yield from results]
    with the coroutine, the shared [results] list, the position of the
    list iterator and the chunks not read yet; or finished. *)
Inductive gen : Type :=
| Created (payload : json) (iter_path : string)
| Suspended (coroutine : coro) (results : list item) (cursor : nat) (rest : list bytes)
| Finished.

Inductive outcome : Type :=
| Yield (x : item)
| StopIteration
| Raised (e : exn).

(** Lines 385-388 from the top of the [for] loop, with [results] as the
    loop finds it, up to the next [yield] or the end of the loop. *)
Fixpoint loop (coroutine : coro) (results : list item) (chunks : list bytes)
  : gen * outcome :=
  match chunks with
  | [] => (Finished, StopIteration)
  | chunk :: rest =>
      let '(coroutine', completed) := send coroutine chunk in
      let results' := (results ++ completed)%list in
      match results' with
      | x :: _ => (Suspended coroutine' results' 1 rest, Yield x)
      | [] => loop coroutine' [] rest
      end
  end.

(** [payload] of line 378 *)
Definition payload_of (method : string) (params : list json) : json :=
  JObj [("jsonrpc", JStr "2.0"); ("id", JNum 1); ("method", JStr method);
        ("params", JArr params)].

(** Calling [_stream_request] only builds the generator. *)
Definition _stream_request (method : string) (params : list json) (iter_path : string)
  : gen :=
  Created (payload_of method params) iter_path.

(** [next(g)], where [post] is [requests.post(self.uri, json=payload,
    stream=True)].  Resuming after the last item of [results] runs
    [del results[:]] and goes round the loop. *)
Definition next (post : json -> response) (g : gen) : gen * outcome :=
  match g with
  | Created payload iter_path =>
      let results := [] in
      let coroutine := items_coro iter_path in
      let resp := post payload in
      match raise_for_status resp with
      | inl e => (Finished, Raised e)
      | inr _ => loop coroutine results (iter_content resp)
      end
  | Suspended coroutine results cursor rest =>
      match nth_error results cursor with
      | Some x => (Suspended coroutine results (S cursor) rest, Yield x)
      | None => loop coroutine [] rest
      end
  | Finished => (Finished, StopIteration)
  end.

(** [list(g)] with a bound on the number of [next] calls: the items
    yielded, and how the iteration ended if it did within the bound. *)
Fixpoint consume (post : json -> response) (fuel : nat) (g : gen)
  : list item * option outcome :=
  match fuel with
  | O => ([], None)
  | S k =>
      match next post g with
      | (g', Yield x) =>
          let '(xs, fin) := consume post k g' in (x :: xs, fin)
      | (_, other) => ([], Some other)
      end
  end.

(** The items the coroutine completes when it is fed [chunks] one after
    the other. *)
Fixpoint completed_by (coroutine : coro) (chunks : list bytes) : list item :=
  match chunks with
  | [] => []
  | chunk :: rest =>
      let '(coroutine', completed) := send coroutine chunk in
      (completed ++ completed_by coroutine' rest)%list
  end.





End Reader.
End StreamRequest.

(* ===================================================================== *)
(** ** Notions used by the statements *)
(* ===================================================================== *)

(** The provider of [w] holds a handle on [nd], and its cached client
    version, if any, is the one [nd] reports.  [_set_web3] establishes this
    and the methods below keep it. *)
Definition connected_to (w : world) (nd : node) : Prop :=
  exists h,
    _web3 (self w) = Some h /\ remote h = Some nd /\
    (_client_version (self w) = None \/
     _client_version (self w) = Some (node_client_version nd)).

(** The world once the client version has been read and cached. *)
Definition cached (nd : node) (w : world) : world :=
  set_self (BaseGethProvider.with_client_version (Some (node_client_version nd)) (self w)) w.


(** The request of [_get_transaction_trace_using_call_tracer]. *)
Definition call_tracer_request (txn_hash : string) : request :=
  Request "debug_traceTransaction"
    [JStr txn_hash;
     JObj [("enableMemory", JBool true); ("tracer", JStr "callTracer")]].

(** The request of [_get_parity_call_tree]. *)
Definition parity_request (txn_hash : string) : request :=
  Request "trace_transaction" [JStr txn_hash].

(** ** Sample nodes and worlds *)

Definition sample_node (version : string) (head : option Z)
    (answer : request -> result json) : node :=
  {| node_client_version := version; node_chain_id := ChainId 1337;
     node_latest := Block false 0; node_head := head; answer := answer |}.

(** A provider that has just been handed a handle on [nd] and has sent and
    logged nothing yet. *)
Definition world_at (nd : node) : world :=
  {| self := BaseGethProvider.with_web3
               (Some {| remote := Some nd; middleware_onion := [];
                        gas_price_strategy := None |})
               (fresh_provider None);
     listening := Some nd;
     _clean_uri := "http://localhost:8545";
     ipc_file := None;
     sent := [];
     logged := [] |}.

(** A provider that has never connected, with [nd] answering at its uri. *)
Definition world_before (nd : node) : world :=
  {| self := fresh_provider None;
     listening := Some nd;
     _clean_uri := "http://localhost:8545";
     ipc_file := None;
     sent := [];
     logged := [] |}.

(** Decoders that keep the node's JSON as the tree; a parity answer has to
    be a list and a call-tracer answer an object. *)
Definition sample_trace : EvmTrace :=
  {| ParityTraceList := list json;
     EvmCallTreeNode := json;
     CallTreeNode := json * option string;
     parse_obj := fun j =>
       match j with
       | JArr l => inr l
       | _ => inl (Raise ValueError "value is not a valid list")
       end;
     get_calltree_from_parity_trace := fun l => inr (JArr l);
     get_calltree_from_geth_call_trace := fun j =>
       match j with
       | JObj _ => inr j
       | _ => inl (Raise ValueError "not a call frame")
       end;
     _create_call_tree_node := fun j h => inr (j, h) |}.

(** The phrase by which [_make_request] recognises an unsupported method. *)
Definition unsupported_phrase : string := "does not exist/is not available".


(** An Erigon node that answers both trace endpoints. *)
Definition erigon_node : node :=
  sample_node "erigon/2.48.1/linux-amd64/go1.20.5" (Some 10)
    (fun r =>
       if String.eqb (endpoint r) "trace_transaction" then
         inr (JArr [JObj [("type", JStr "call")]])
       else inr (JObj [("type", JStr "CALL")])).

(** A Geth node: no parity-style endpoint, a working call tracer. *)
Definition geth_node : node :=
  sample_node "Geth/v1.10.26-stable/linux-amd64/go1.18.5" (Some 10)
    (fun r =>
       if String.eqb (endpoint r) "trace_transaction" then
         inl (Raise ProviderError
                "the method trace_transaction does not exist/is not available")
       else inr (JObj [("type", JStr "CALL")])).

(** What [_log_connection] writes for [client_name] in world [w]. *)
Definition connection_record (client_name : string) (w : world) : log_record :=
  Log INFO (("Connecting to existing " ++ client_name ++ " node at ") ++ " "
              ++ match ipc_file w with Some path => path | None => _clean_uri w end
              ++ ".").

(** What line 281 writes for a client of version [v]. *)
Definition non_geth_warning (v : string) : log_record :=
  Log WARNING ("Connecting Geth plugin to non-Geth client '" ++ Py.split_head "/" v ++ "'.").

(** A client whose version string names both Geth and Erigon. *)
Definition geth_erigon_node : node :=
  sample_node "Geth-Erigon/v2.0.0/linux-amd64" (Some 10) (fun _ => inr JNull).

Definition nethermind_node : node :=
  sample_node "Nethermind/v1.14.6/linux-x64/dotnet6.0.11" (Some 10) (fun _ => inr JNull).

Definition besu_node : node :=
  sample_node "besu/v22.10.3/linux-x86_64/openjdk-java-11" (Some 10) (fun _ => inr JNull).

(** The world after the tuning step, from the world [w1] in which the client
    version of [nd] has been cached. *)
Definition tuned (nd : node) (w1 : world) : world :=
  let v := Py.lower (node_client_version nd) in
  if Py.contains "geth" v then
    add_logged (connection_record "Geth" w1) w1
  else if Py.contains "erigon" v then
    let w2 := add_logged (connection_record "Erigon" w1) w1 in
    set_self (BaseGethProvider.with_block_page_size 40000
                (BaseGethProvider.with_concurrency 8 (self w2))) w2
  else if Py.contains "nethermind" v then
    let w2 := add_logged (connection_record "Nethermind" w1) w1 in
    set_self (BaseGethProvider.with_block_page_size 50000
                (BaseGethProvider.with_concurrency 32 (self w2))) w2
  else
    add_logged (non_geth_warning (node_client_version nd)) w1.

(** ** Reading the genesis document *)

(** [d[k]] on a JSON object *)
Definition json_get (k : string) (j : json) : option json :=
  match j with
  | JObj fields => option_map snd (find (fun kv => String.eqb (fst kv) k) fields)
  | _ => None
  end.

(** A string of hexadecimal digits only. *)
Fixpoint all_hex (s : string) : bool :=
  match s with
  | EmptyString => true
  | String c t =>
      match Py.hex_digit c with
      | Some _ => all_hex t
      | None => false
      end
  end.

(** The bytes that an even-length string of hexadecimal digits denotes. *)
Fixpoint unhex (s : string) : option (list Z) :=
  match s with
  | EmptyString => Some []
  | String _ EmptyString => None
  | String a (String b t) =>
      match Py.hex_digit a, Py.hex_digit b, unhex t with
      | Some x, Some y, Some r => Some (16 * x + y :: r)
      | _, _, _ => None
      end
  end.

(** The bytes of the [extraData] field of a genesis document. *)
Definition extra_data_bytes (genesis : json) : option (list Z) :=
  match json_get "extraData" genesis with
  | Some (JStr s) => if Py.startswith "0x" s then unhex (Py.drop 2 s) else None
  | _ => None
  end.

(** A machine with geth installed and nothing else on it, and collaborators
    that return one fixed sealer account and no funded accounts. *)
Definition clean_machine : os :=
  {| geth_on_path := true; directories := []; chains := []; children := [];
     atexit := []; os_logged := [] |}.

Definition sample_tools : GethTools :=
  {| ensure_account_exists := fun _ => "0x00a329c0648769a73afac7f9381e08fb43dbea72";
     generate_dev_accounts := fun _ _ => [];
     DEFAULT_TEST_MNEMONIC := "test test test test test test test test test test test junk";
     DEFAULT_NUMBER_OF_TEST_ACCOUNTS := 10 |}.

(** The genesis document the constructor writes on [clean_machine]. *)
Definition sample_genesis : option json :=
  match
    chains (snd (GethDevProcess.__init__ (H := sample_tools) "/data" (Some "localhost")
                   8545 "test test test" 3 1337 (inl default_initial_balance) None
                   clean_machine))
  with
  | [(genesis, _)] => Some genesis
  | _ => None
  end.

(** ** A sample incremental parser *)

(** Items are the lines of the body: a byte 10 completes the line collected
    in [pending]. *)
Fixpoint split_lines (pending : bytes) (chunk : bytes) : bytes * list bytes :=
  match chunk with
  | [] => (pending, [])
  | b :: t =>
      if b =? 10 then
        let '(p, ls) := split_lines [] t in (p, pending :: ls)
      else split_lines (pending ++ [b])%list t
  end.

Definition line_reader : Ijson :=
  {| item := bytes; coro := bytes;
     items_coro := fun _ => [];
     send := split_lines |}.

(** The same four-byte body delivered whole and in three pieces. *)
Definition post_whole (payload : json) : response :=
  Response 200 [[49; 10; 50; 10]].

Definition post_pieces (payload : json) : response :=
  Response 200 [[49]; [10; 50]; [10]].

(** A node that has the parity endpoint but no trace for the hash, and a
    node whose transport fails on every request. *)
Definition node_with_empty_trace : node :=
  sample_node "OpenEthereum/v3.3.5/x86_64-linux" (Some 10)
    (fun r =>
       if String.eqb (endpoint r) "trace_transaction" then inr (JArr [])
       else inr (JObj [("type", JStr "CALL")])).

Definition unreachable_node : node :=
  sample_node "Geth/v1.10.26-stable/linux-amd64/go1.18.5" (Some 10)
    (fun _ => inl (Raise HTTPError "502 Server Error: Bad Gateway")).

(** ** Snapshot ids as numbers *)

(** The number a byte string denotes, most significant byte first. *)
Definition be_value (b : list Z) : Z :=
  fold_left (fun acc x => 256 * acc + x) b 0.

(** The number a string of hexadecimal digits denotes after the digits
    worth [acc]. *)
Fixpoint uint_value (acc : Z) (d : Hexadecimal.uint) : Z :=
  match d with
  | Hexadecimal.Nil => acc
  | Hexadecimal.D0 d => uint_value (16 * acc + 0) d
  | Hexadecimal.D1 d => uint_value (16 * acc + 1) d
  | Hexadecimal.D2 d => uint_value (16 * acc + 2) d
  | Hexadecimal.D3 d => uint_value (16 * acc + 3) d
  | Hexadecimal.D4 d => uint_value (16 * acc + 4) d
  | Hexadecimal.D5 d => uint_value (16 * acc + 5) d
  | Hexadecimal.D6 d => uint_value (16 * acc + 6) d
  | Hexadecimal.D7 d => uint_value (16 * acc + 7) d
  | Hexadecimal.D8 d => uint_value (16 * acc + 8) d
  | Hexadecimal.D9 d => uint_value (16 * acc + 9) d
  | Hexadecimal.Da d => uint_value (16 * acc + 10) d
  | Hexadecimal.Db d => uint_value (16 * acc + 11) d
  | Hexadecimal.Dc d => uint_value (16 * acc + 12) d
  | Hexadecimal.Dd d => uint_value (16 * acc + 13) d
  | Hexadecimal.De d => uint_value (16 * acc + 14) d
  | Hexadecimal.Df d => uint_value (16 * acc + 15) d
  end.

(** The [debug_setHead] request for a block given as a hex string. *)
Definition set_head_request (block_number_hex_str : string) : request :=
  Request "debug_setHead" [JStr block_number_hex_str].

(** ** Notions for the connection checks *)

(** [is_likely_poa] of lines 295-303 for a node. *)
Definition likely_poa (nd : node) : bool :=
  match node_latest nd with
  | BlockExtraDataTooLong => true
  | Block poa len => poa || (len >? MAX_EXTRADATA_LENGTH)
  end.

(** Whether the PoA middleware is in the onion of a handle. *)
Definition has_poa_middleware (h : web3) : bool :=
  existsb (String.eqb geth_poa_middleware) (middleware_onion h).

(** A proof-of-authority chain: the latest block has 97 bytes of extra data. *)
Definition poa_node : node :=
  {| node_client_version := "Geth/v1.10.26-stable/linux-amd64/go1.18.5";
     node_chain_id := ChainId 1337;
     node_latest := Block false 97;
     node_head := Some 10;
     answer := fun _ => inr JNull |}.

(** A node that is still syncing and refuses the chain id query. *)
Definition syncing_node : node :=
  {| node_client_version := "Geth/v1.10.26-stable/linux-amd64/go1.18.5";
     node_chain_id := ChainIdErrorDict (Some "the node is syncing");
     node_latest := Block false 0;
     node_head := Some 10;
     answer := fun _ => inr JNull |}.

(** A provider that has never connected, with nothing answering at its uri. *)
Definition world_alone : world :=
  {| self := fresh_provider None;
     listening := None;
     _clean_uri := "http://localhost:8545";
     ipc_file := None;
     sent := [];
     logged := [] |}.

(** The message of the [ProviderError] that lines 288-293 raise for a failed
    chain id query, when the model says which. *)
Definition chain_id_error_message (a : chain_id_answer) : option string :=
  match a with
  | ChainIdErrorDict (Some m) => Some m
  | ChainIdError => Some "Error getting chain id."
  | _ => None
  end.

(** A machine without a geth executable, and one with stale data under the
    data directory of an earlier run. *)
Definition machine_without_geth : os :=
  {| geth_on_path := false; directories := ["/home/user"]; chains := [];
     children := []; atexit := []; os_logged := [] |}.

Definition machine_with_stale_data : os :=
  {| geth_on_path := true;
     directories := ["/data/geth/chaindata"; "/data/geth"; "/data"; "/database"; "/home"];
     chains := []; children := []; atexit := []; os_logged := [] |}.

(** Every directory that exists under [dir] has [dir] existing too. *)
Definition parent_exists (dir : string) (o : os) : Prop :=
  forall q, In q (directories o) -> GethDevProcess.under dir q = true ->
            In dir (directories o).

(** A supervisor as the constructor leaves it on [clean_machine]. *)
Definition sample_process : GethDevProcess.t :=
  {| GethDevProcess.data_dir := "/data";
     GethDevProcess._hostname := Some "localhost";
     GethDevProcess._port := 8545;
     GethDevProcess.is_running := false;
     GethDevProcess.geth_kwargs_ :=
       GethDevProcess.with_miner_etherbase "00a329c0648769a73afac7f9381e08fb43dbea72"
         (GethDevProcess.construct_test_chain_kwargs "/data" None (Some "localhost")
            8545 1337);
     GethDevProcess.proc := None |}.



(* ===================================================================== *)
(** ** class GethDev, continued: connect, _start_geth, disconnect *)
(* ===================================================================== *)

(** What [_start_geth] reads from its surroundings: [URL(self.uri)],
    [self.data_dir], the text of [self.ipc_path], the "test" config with the
    keys [from_uri] looks at, [geth_config.executable], what py-geth's
    [wait_for_rpc] does once the child is started, and the node that answers
    at the uri while the child runs (if it comes up at all). *)
Record dev_env : Type := DevEnv {
  uri_parsed : parsed_uri;
  dev_data_dir : string;
  dev_ipc_path : string;
  test_config : from_uri_kwargs;
  geth_config_executable : option string;
  rpc_wait : result unit;
  spawned : option node
}.

(** A [GethDev] provider with the machine it runs on: the provider of
    [world], the machine of [os], and the [_process] attribute. *)
Record dev_state : Type := DevState {
  provider_side : world;
  machine : os;
  _process : option GethDevProcess.t
}.

Module GethDevSession.

Definition D : Type -> Type := State dev_state.

(** A method of the provider classes run inside a session. *)
Definition in_world {A : Type} (m : M A) : D A :=
  fun s =>
    let '(r, w') := m (provider_side s) in
    (r, {| provider_side := w'; machine := machine s; _process := _process s |}).

(** A method of the supervisor run inside a session. *)
Definition on_machine {A : Type} (m : GethDevProcess.P A) : D A :=
  fun s =>
    let '(r, o') := m (machine s) in
    (r, {| provider_side := provider_side s; machine := o'; _process := _process s |}).

Definition set_process (p : option GethDevProcess.t) : D unit :=
  fun s => (inr tt, {| provider_side := provider_side s; machine := machine s;
                       _process := p |}).

Definition get_process : D (option GethDevProcess.t) :=
  fun s => (inr (_process s), s).

(** The uri is answered by [n] from now on (or by nothing). *)
Definition now_listening (n : option node) : D unit :=
  in_world (fun w => (inr tt, set_listening n w)).

(** [self.web3.is_connected()]: the handle asks again.  A handle that
    reached no node when it was made reaches the node that listens now. *)
Definition web3_is_connected : D bool :=
  in_world
    (h <- BaseGethProvider.web3_ ;;
     match remote h with
     | Some _ => ret true
     | None =>
         fun w =>
           match listening w with
           | Some nd =>
               (inr true,
                set_self (BaseGethProvider.with_web3
                            (Some {| remote := Some nd;
                                     middleware_onion := middleware_onion h;
                                     gas_price_strategy := gas_price_strategy h |})
                            (self w)) w)
           | None => (inr false, w)
           end
     end).

Section Session.
Context `{GethTools}.
Variable env : dev_env.

(** lines 418-434 *)
Definition _start_geth : D unit :=
  let test_config :=
    match geth_config_executable env with
    | Some e => {| kw_mnemonic := kw_mnemonic (test_config env);
                   kw_number_of_accounts := kw_number_of_accounts (test_config env);
                   kw_executable := Some e |}
    | None => test_config env
    end in
  process <- on_machine
               (GethDevProcess.from_uri (uri_parsed env) (dev_data_dir env) test_config) ;;
  process <- on_machine
               (GethDevProcess.connect (dev_ipc_path env) (rpc_wait env) process) ;;
  now_listening (spawned env) ;;
  connected <- web3_is_connected ;;
  (if negb connected then
     on_machine (GethDevProcess.disconnect process) ;;
     now_listening None ;;
     raise ConnectionError "Unable to connect to locally running geth."
   else
     in_world (BaseGethProvider.inject geth_poa_middleware)) ;;
  set_process (Some process).

(** lines 411-416 *)
Definition connect : D unit :=
  in_world BaseGethProvider._set_web3 ;;
  connected <- in_world BaseGethProvider.is_connected ;;
  if negb connected then _start_geth
  else in_world BaseGethProvider._complete_connect.

(** lines 436-442 *)
Definition disconnect : D unit :=
  p <- get_process ;;
  match p with
  | Some process =>
      on_machine (GethDevProcess.disconnect process) ;;
      now_listening None ;;
      set_process None
  | None => ret tt
  end ;;
  in_world BaseGethProvider.disconnect.

End Session.
End GethDevSession.

(** ** Sample sessions *)

Definition dev_node : node :=
  {| node_client_version := "Geth/v1.10.26-stable/linux-amd64/go1.18.5";
     node_chain_id := ChainId 1337;
     node_latest := Block false 97;
     node_head := Some 0;
     answer := fun _ => inr JNull |}.

Definition local_env (wait : result unit) (comes_up : option node) : dev_env :=
  {| uri_parsed := URL (Some "localhost") (Some 8545);
     dev_data_dir := "/home/user/.ape/geth/dev";
     dev_ipc_path := "$HOME/.ape/geth/dev/geth.ipc";
     test_config := Kwargs None None None;
     geth_config_executable := None;
     rpc_wait := wait;
     spawned := comes_up |}.

Definition remote_env : dev_env :=
  {| uri_parsed := URL (Some "node.example.org") (Some 8545);
     dev_data_dir := "/home/user/.ape/geth/dev";
     dev_ipc_path := "$HOME/.ape/geth/dev/geth.ipc";
     test_config := Kwargs None None None;
     geth_config_executable := None;
     rpc_wait := inr tt;
     spawned := None |}.

(** A session that has never connected, on [clean_machine]. *)
Definition session_before (answering : option node) : dev_state :=
  {| provider_side := set_listening answering world_alone;
     machine := clean_machine;
     _process := None |}.
(* ===================================================================== *)
(** * Properties *)
(* ===================================================================== *)

(** ** Checks of the built-ins on concrete values *)

Example lower_mixed : Py.lower "Geth/v1.10.26-Stable" = "geth/v1.10.26-stable".
Proof. reflexivity. Qed.

Example contains_mid : Py.contains "erigon" "x/erigon/2.0" = true.
Proof. reflexivity. Qed.

Example remove_prefix :
  Py.remove_all "0x" "0x00a329c0648769a73afac7f9381e08fb43dbea72"
  = "00a329c0648769a73afac7f9381e08fb43dbea72".
Proof. reflexivity. Qed.

Example to_hex_values : (to_hex 5, to_hex 0, to_hex 255, to_hex (-26)) = ("0x5", "0x0", "0xff", "-0x1a").
Proof. reflexivity. Qed.

Example int16_forms :
  (Py.int16 "0x1f", Py.int16 " -1F ", Py.int16 "1_0", Py.int16 "0x", Py.int16 "g")
  = (Some 31, Some (-31), Some 16, None, None).
Proof. reflexivity. Qed.

Example bytes_hex_2 : Py.bytes_hex [1; 255] = "01ff".
Proof. reflexivity. Qed.

Example str_balance_default :
  GethDevProcess.str_balance (inl default_initial_balance) = "10000000000000000000000".
Proof. reflexivity. Qed.

(** ** Connected worlds *)

Lemma remote_node_connected (w : world) (nd : node) :
  connected_to w nd -> BaseGethProvider.remote_node w = (inr nd, w).
Proof.
  intros (h & Hw & Hr & _).
  unfold BaseGethProvider.remote_node, BaseGethProvider.web3_, bind, get_self, ret.
  rewrite Hw. cbn. rewrite Hr. reflexivity.
Qed.

Lemma client_version_connected (w : world) (nd : node) :
  connected_to w nd ->
  exists w1,
    BaseGethProvider.client_version w = (inr (node_client_version nd), w1) /\
    connected_to w1 nd /\
    _client_version (self w1) = Some (node_client_version nd) /\
    sent w1 = sent w /\ logged w1 = logged w /\
    concurrency (self w1) = concurrency (self w) /\
    block_page_size (self w1) = block_page_size (self w) /\
    _clean_uri w1 = _clean_uri w /\ ipc_file w1 = ipc_file w.
Proof.
  intros Hc. pose proof Hc as (h & Hw & Hr & Hv).
  unfold BaseGethProvider.client_version, bind, get_self.
  rewrite Hw. destruct Hv as [Hv | Hv]; rewrite Hv.
  - rewrite (remote_node_connected Hc). cbn.
    exists (cached nd w). repeat split; try reflexivity.
    exists h. cbn. auto.
  - exists w. cbn. repeat split; auto.
Qed.

Lemma client_version_cached (w : world) (h : web3) (v : string) :
  _web3 (self w) = Some h -> _client_version (self w) = Some v ->
  BaseGethProvider.client_version w = (inr v, w).
Proof.
  intros Hw Hv. unfold BaseGethProvider.client_version, bind, get_self.
  rewrite Hw, Hv. reflexivity.
Qed.

Lemma latest_number_connected (w : world) (nd : node) :
  connected_to w nd -> GethDev.latest_number w = (inr (node_head nd), w).
Proof.
  intros Hc. unfold GethDev.latest_number, bind.
  rewrite (remote_node_connected Hc). reflexivity.
Qed.

Lemma super_make_request_connected (w : world) (nd : node) (e : string) (ps : list json) :
  connected_to w nd ->
  BaseGethProvider.super_make_request e ps w
  = (answer nd (Request e ps), add_sent (Request e ps) w).
Proof.
  intros Hc. unfold BaseGethProvider.super_make_request, bind.
  rewrite (remote_node_connected Hc). reflexivity.
Qed.

Lemma connected_add_sent (w : world) (nd : node) (r : request) :
  connected_to w nd -> connected_to (add_sent r w) nd.
Proof. intros (h & H). exists h. exact H. Qed.

(** [_make_request] sends exactly the one request, whatever comes back. *)
Lemma make_request_sent (w : world) (nd : node) (e : string) (ps : list json) :
  connected_to w nd ->
  exists r,
    BaseGethProvider._make_request e ps w = (r, add_sent (Request e ps) w).
Proof.
  intros Hc. unfold BaseGethProvider._make_request, try_except.
  rewrite (super_make_request_connected e ps Hc).
  destruct (answer nd (Request e ps)) as [err | v]; [| eauto].
  destruct (caught_by [ProviderError] err); [| eauto].
  destruct (Py.contains _ _); unfold raise, reraise; eauto.
Qed.

(** ** Snapshot and revert *)

Lemma eq_number_or_0 (c : Z) : GethDev.eq_number (GethDev.or_0 (Some c)) (Some c) = true.
Proof.
  unfold GethDev.or_0, GethDev.eq_number.
  destruct (Z.eqb_spec c 0) as [-> | _]; [reflexivity | apply Z.eqb_refl].
Qed.

(** C9: [revert(snapshot())] right after [snapshot()] is a no-op.  With the
    chain head at block [c], [snapshot] returns an id and leaves the world
    as it is, and [revert] of that id returns early: no request is sent
    (in particular no [debug_setHead]), nothing is logged, nothing changes. *)
Theorem revert_of_snapshot_is_noop (w : world) (nd : node) (c : Z) :
  connected_to w nd -> node_head nd = Some c ->
  exists id,
    GethDev.snapshot w = (inr id, w) /\
    GethDev.revert id w = (inr tt, w).
Proof.
  intros Hc Hh. exists (SnapInt (GethDev.or_0 (Some c))). split.
  - unfold GethDev.snapshot, bind. rewrite (latest_number_connected Hc), Hh. reflexivity.
  - unfold GethDev.revert, bind, ret. cbn [fst snd].
    rewrite (latest_number_connected Hc), Hh, eq_number_or_0. reflexivity.
Qed.

Lemma revert_of_snapshot_is_noop_witness :
  let w := world_at (sample_node "Geth/v1.10.26" (Some 7) (fun _ => inr JNull)) in
  exists id, GethDev.snapshot w = (inr id, w) /\ GethDev.revert id w = (inr tt, w).
Proof.
  intro w.
  apply (@revert_of_snapshot_is_noop w
           (sample_node "Geth/v1.10.26" (Some 7) (fun _ => inr JNull)) 7).
  - eexists. cbn. repeat split. left. reflexivity.
  - reflexivity.
Defined.

(** The comparison of line 462 is of a number with itself. *)
Lemma future_guard_never_fires (n : Z) : (n >? n) = false.
Proof. rewrite Z.gtb_ltb. apply Z.ltb_irrefl. Qed.

(** [revert] of an integer id other than the head sends [debug_setHead]. *)
Lemma revert_int_not_head (w : world) (nd : node) (n : Z) :
  connected_to w nd -> GethDev.eq_number n (node_head nd) = false ->
  exists r,
    GethDev.revert (SnapInt n) w
    = (r, add_sent (Request "debug_setHead" [JStr (to_hex n)]) w).
Proof.
  intros Hc Hne. unfold GethDev.revert, bind, ret. cbn [fst snd].
  rewrite (latest_number_connected Hc), Hne, future_guard_never_fires.
  destruct (make_request_sent "debug_setHead" [JStr (to_hex n)] Hc) as (r & ->).
  destruct r; eauto.
Qed.

(** C1, what the code does: for an integer snapshot id [n] strictly above
    the head [c], [revert] logs nothing and does send the [debug_setHead]
    request for block [n]; the guard of line 462 compares [n] with itself. *)
Theorem revert_future_block_sends_setHead (w : world) (nd : node) (n c : Z) :
  connected_to w nd -> node_head nd = Some c -> c < n ->
  let w' := snd (GethDev.revert (SnapInt n) w) in
  sent w' = (sent w ++ [Request "debug_setHead" [JStr (to_hex n)]])%list /\
  logged w' = logged w.
Proof.
  intros Hc Hh Hlt.
  destruct (@revert_int_not_head w nd n Hc) as (r & Hr).
  - rewrite Hh. cbn. apply Z.eqb_neq. lia.
  - cbn zeta. rewrite Hr. cbn. split; reflexivity.
Qed.

Lemma revert_future_block_sends_setHead_witness :
  let w := world_at (sample_node "Geth/v1.10.26" (Some 3) (fun _ => inr JNull)) in
  let w' := snd (GethDev.revert (SnapInt 5) w) in
  sent w' = [Request "debug_setHead" [JStr "0x5"]] /\ logged w' = [].
Proof.
  intros w.
  apply (@revert_future_block_sends_setHead w
           (sample_node "Geth/v1.10.26" (Some 3) (fun _ => inr JNull)) 5 3).
  - eexists. cbn. repeat split. left. reflexivity.
  - reflexivity.
  - lia.
Defined.

(** ** Call trees *)

(** Whatever the world and the keyword arguments, the requests
    [GethDev.get_call_tree] adds are none or the single call-tracer
    request. *)
Lemma gethdev_call_tree_requests
    (T : EvmTrace) (w : world) (txn_hash : string) (kwargs : list (string * json)) :
  exists new,
    sent (snd (GethDev.get_call_tree txn_hash kwargs w)) = (sent w ++ new)%list /\
    (new = [] \/ new = [call_tracer_request txn_hash]).
Proof.
  unfold GethDev.get_call_tree.
  destruct kwargs as [| [k v] rest].
  2:{ unfold raise. exists []. cbn [snd]. rewrite app_nil_r. auto. }
  unfold BaseGethProvider._get_geth_call_tree,
    BaseGethProvider._get_transaction_trace_using_call_tracer,
    BaseGethProvider._make_request, BaseGethProvider.super_make_request,
    BaseGethProvider.remote_node, BaseGethProvider.web3_,
    try_except, bind, get_self, ret, raise, reraise, lift.
  fold (call_tracer_request txn_hash).
  destruct (_web3 (self w)) as [h |].
  2:{ exists []. cbn [snd]. rewrite app_nil_r. auto. }
  destruct (remote h) as [nd |].
  2:{ exists []. cbn [snd]. rewrite app_nil_r. auto. }
  destruct (answer nd (call_tracer_request txn_hash)) as [e | calls].
  - destruct (caught_by [ProviderError] e);
      [ destruct (Py.contains _ _) | ];
      exists [call_tracer_request txn_hash]; auto.
  - destruct (get_calltree_from_geth_call_trace calls);
      exists [call_tracer_request txn_hash]; auto.
Qed.

(** [_get_geth_call_tree] on a connection: the one call-tracer request, and
    the outcome read off the node's answer to it. *)
Lemma geth_call_tree_run (T : EvmTrace) (w : world) (nd : node) (txn_hash : string) :
  connected_to w nd ->
  BaseGethProvider._get_geth_call_tree txn_hash w
  = (match answer nd (call_tracer_request txn_hash) with
     | inr calls =>
         match get_calltree_from_geth_call_trace calls with
         | inr evm_call => _create_call_tree_node evm_call (Some txn_hash)
         | inl e => inl e
         end
     | inl err =>
         if issubclass (exn_cls err) ProviderError
            && Py.contains unsupported_phrase (exn_msg err)
         then inl (Raise APINotImplementedError
                     "RPC method 'debug_traceTransaction' is not implemented by this node instance.")
         else inl err
     end,
     add_sent (call_tracer_request txn_hash) w).
Proof.
  intros Hc.
  unfold BaseGethProvider._get_geth_call_tree,
    BaseGethProvider._get_transaction_trace_using_call_tracer,
    BaseGethProvider._make_request, try_except, bind.
  rewrite (super_make_request_connected _ _ Hc).
  fold (call_tracer_request txn_hash).
  destruct (answer nd (call_tracer_request txn_hash)) as [err | calls].
  - unfold caught_by. cbn [existsb]. rewrite orb_false_r.
    destruct (issubclass (exn_cls err) ProviderError); [| reflexivity].
    unfold unsupported_phrase. cbn [andb].
    destruct (Py.contains _ (exn_msg err)); reflexivity.
  - unfold lift.
    destruct (get_calltree_from_geth_call_trace calls); reflexivity.
Qed.

(** C10: on a connection to any node, whatever its client and whatever
    endpoints it has, [GethDev.get_call_tree] sends exactly the one
    call-tracer request and changes nothing else; its outcome is read off
    the node's answer to that request alone: the tree decoded from the
    answer, the decoder's error, or the request's error as [_make_request]
    classifies it.  So a tree is returned exactly when the call tracer
    answers and its answer decodes, and it is that tree.  In every world and
    with any keyword arguments the requests added are none or that one
    request, so [trace_transaction] is never requested. *)
Theorem gethdev_call_tree_is_call_tracer_only
    (T : EvmTrace) (w : world) (nd : node) (txn_hash : string) :
  connected_to w nd ->
  snd (GethDev.get_call_tree txn_hash [] w)
  = add_sent (call_tracer_request txn_hash) w /\
  fst (GethDev.get_call_tree txn_hash [] w)
  = match answer nd (call_tracer_request txn_hash) with
    | inr calls =>
        match get_calltree_from_geth_call_trace calls with
        | inr evm_call => _create_call_tree_node evm_call (Some txn_hash)
        | inl e => inl e
        end
    | inl err =>
        if issubclass (exn_cls err) ProviderError
           && Py.contains unsupported_phrase (exn_msg err)
        then inl (Raise APINotImplementedError
                    "RPC method 'debug_traceTransaction' is not implemented by this node instance.")
        else inl err
    end /\
  (forall tree,
     fst (GethDev.get_call_tree txn_hash [] w) = inr tree <->
     exists calls evm_call,
       answer nd (call_tracer_request txn_hash) = inr calls /\
       get_calltree_from_geth_call_trace calls = inr evm_call /\
       _create_call_tree_node evm_call (Some txn_hash) = inr tree) /\
  (forall (w0 : world) (kwargs : list (string * json)) (new : list request),
     sent (snd (GethDev.get_call_tree txn_hash kwargs w0)) = (sent w0 ++ new)%list ->
     (new = [] \/ new = [call_tracer_request txn_hash]) /\
     ~ In (parity_request txn_hash) new).
Proof.
  intros Hc.
  assert (Hrun := @geth_call_tree_run T w nd txn_hash Hc).
  change (BaseGethProvider._get_geth_call_tree txn_hash w)
    with (GethDev.get_call_tree txn_hash [] w) in Hrun.
  rewrite Hrun. cbn [fst snd].
  split; [reflexivity |]. split; [reflexivity |]. split.
  - intros tree. split.
    + destruct (answer nd (call_tracer_request txn_hash)) as [err | calls].
      * destruct (issubclass _ _ && Py.contains _ _); discriminate.
      * destruct (get_calltree_from_geth_call_trace calls) as [e | evm_call] eqn:Hd;
          [discriminate |].
        intros Ht. exists calls, evm_call. auto.
    + intros (calls & evm_call & Ha & Hd & Ht). rewrite Ha, Hd. exact Ht.
  - intros w0 kwargs new Hs.
    destruct (@gethdev_call_tree_requests T w0 txn_hash kwargs) as (new0 & Hs0 & Hn).
    rewrite Hs0 in Hs. apply app_inv_head in Hs. subst new0.
    split; [exact Hn |].
    destruct Hn as [-> | ->]; [intros [] |].
    intros [E | []]. discriminate E.
Qed.

(** An Erigon node that answers both trace endpoints: the base provider
    would ask it for the parity trace, the development provider asks the
    call tracer and returns the tree decoded from its answer. *)
Lemma gethdev_call_tree_is_call_tracer_only_witness :
  let w := world_at erigon_node in
  connected_to w erigon_node /\
  GethDev.get_call_tree (H := sample_trace) "0xabc" [] w
  = (inr (JObj [("type", JStr "CALL")], Some "0xabc"),
     add_sent (call_tracer_request "0xabc") w) /\
  sent (snd (BaseGethProvider.get_call_tree (H := sample_trace) "0xabc" w))
  = [parity_request "0xabc"].
Proof.
  intro w.
  assert (Hc : connected_to w erigon_node).
  { eexists. cbn. repeat split. left. reflexivity. }
  split; [exact Hc |].
  destruct (@gethdev_call_tree_is_call_tracer_only sample_trace w erigon_node "0xabc" Hc)
    as (Hs & Hr & _).
  split; [| reflexivity].
  rewrite (surjective_pairing (GethDev.get_call_tree (H := sample_trace) "0xabc" [] w)).
  rewrite Hs, Hr. reflexivity.
Defined.

Lemma make_request_ok (w : world) (nd : node) (e : string) (ps : list json) (v : json) :
  connected_to w nd -> answer nd (Request e ps) = inr v ->
  BaseGethProvider._make_request e ps w = (inr v, add_sent (Request e ps) w).
Proof.
  intros Hc Ha. unfold BaseGethProvider._make_request, try_except.
  rewrite (super_make_request_connected e ps Hc), Ha. reflexivity.
Qed.


(** [_get_parity_call_tree] sends the parity request and nothing else. *)
Lemma parity_call_tree_sent (T : EvmTrace) (w : world) (nd : node) (txn_hash : string) :
  connected_to w nd ->
  exists r,
    BaseGethProvider._get_parity_call_tree txn_hash w
    = (r, add_sent (parity_request txn_hash) w).
Proof.
  intros Hc. unfold BaseGethProvider._get_parity_call_tree, bind.
  destruct (make_request_sent "trace_transaction" [JStr txn_hash] Hc) as (r & ->).
  fold (parity_request txn_hash).
  destruct r as [e | v]; [eauto |].
  destruct (truthy v); cbn [negb]; unfold raise, lift; [| eauto].
  destruct (parse_obj v); [eauto |].
  destruct (get_calltree_from_parity_trace _); eauto.
Qed.

(** C2 as amended: on a connection whose client version contains "erigon",
    [get_call_tree] is the parity-style reconstruction alone.  It sends
    [trace_transaction] and no other request, and whatever that step
    returns or raises is the outcome: there is no fall-back to the call
    tracer. *)
Theorem erigon_call_tree_is_parity_only
    (T : EvmTrace) (w : world) (nd : node) (txn_hash : string) :
  connected_to w nd ->
  Py.contains "erigon" (Py.lower (node_client_version nd)) = true ->
  BaseGethProvider.get_call_tree txn_hash w
  = BaseGethProvider._get_parity_call_tree txn_hash
      (snd (BaseGethProvider.client_version w)) /\
  sent (snd (BaseGethProvider.get_call_tree txn_hash w))
  = (sent w ++ [parity_request txn_hash])%list.
Proof.
  intros Hc He.
  destruct (client_version_connected Hc) as (w1 & Hv & Hc1 & _ & Hs & _).
  unfold BaseGethProvider.get_call_tree, bind. rewrite Hv, He. cbn [snd].
  split; [reflexivity |].
  destruct (parity_call_tree_sent T txn_hash Hc1) as (r & ->).
  cbn. rewrite Hs. reflexivity.
Qed.

Lemma erigon_call_tree_is_parity_only_witness :
  let w := world_at erigon_node in
  BaseGethProvider.get_call_tree (H := sample_trace) "0xabc" w
  = BaseGethProvider._get_parity_call_tree (H := sample_trace) "0xabc"
      (snd (BaseGethProvider.client_version w)) /\
  sent (snd (BaseGethProvider.get_call_tree (H := sample_trace) "0xabc" w))
  = [parity_request "0xabc"].
Proof.
  intro w.
  apply (@erigon_call_tree_is_parity_only sample_trace w erigon_node "0xabc").
  - eexists. cbn. repeat split. left. reflexivity.
  - reflexivity.
Defined.

(** C2 as stated fails: connected to Erigon, [get_call_tree] does send the
    parity-style [trace_transaction] request and never reaches the call
    tracer. *)
Lemma erigon_call_tree_requests_parity_trace :
  let w' := snd (BaseGethProvider.get_call_tree (H := sample_trace) "0xabc"
                   (world_at erigon_node)) in
  In (parity_request "0xabc") (sent w') /\
  ~ In (call_tracer_request "0xabc") (sent w').
Proof.
  cbn. split; [left; reflexivity |].
  intros [E | []]. discriminate E.
Qed.

(** [_get_geth_call_tree] on a node whose call tracer answers and decodes. *)
Lemma geth_call_tree_ok (T : EvmTrace) (w : world) (nd : node) (txn_hash : string)
    (calls : json) (evm_call : EvmCallTreeNode) (tree : CallTreeNode) :
  connected_to w nd ->
  answer nd (call_tracer_request txn_hash) = inr calls ->
  get_calltree_from_geth_call_trace calls = inr evm_call ->
  _create_call_tree_node evm_call (Some txn_hash) = inr tree ->
  BaseGethProvider._get_geth_call_tree txn_hash w
  = (inr tree, add_sent (call_tracer_request txn_hash) w).
Proof.
  intros Hc Ha Hd Ht.
  unfold BaseGethProvider._get_geth_call_tree,
    BaseGethProvider._get_transaction_trace_using_call_tracer, bind.
  fold (call_tracer_request txn_hash) in *.
  unfold call_tracer_request in Ha.
  rewrite (make_request_ok _ _ Hc Ha). unfold lift.
  rewrite Hd, Ht. reflexivity.
Qed.




(** ** Capability negotiation *)

Lemma log_connection_run (name : string) (w : world) :
  BaseGethProvider._log_connection name w
  = (inr tt, add_logged (connection_record name w) w).
Proof. reflexivity. Qed.

(** Lines 283-315 touch neither the tunables, nor the log, nor the cached
    client version. *)
Lemma complete_connect_checks_keeps_tunables (w : world) :
  let w' := snd (BaseGethProvider._complete_connect_checks w) in
  concurrency (self w') = concurrency (self w) /\
  block_page_size (self w') = block_page_size (self w) /\
  logged w' = logged w /\
  _client_version (self w') = _client_version (self w).
Proof.
  unfold BaseGethProvider._complete_connect_checks,
    BaseGethProvider.set_gas_price_strategy, BaseGethProvider.remote_node,
    BaseGethProvider.web3_, BaseGethProvider.inject, BaseGethProvider.verify_chain_id,
    try_except, bind, get_self, put_self, ret, raise, reraise.
  destruct (_web3 (self w)) as [h |]; cbn; [| auto].
  destruct (remote h) as [nd |]; cbn; [| auto].
  destruct (node_chain_id nd) as [c | [m |] |]; cbn; auto.
  destruct (node_latest nd) as [| poa len]; cbn.
  - destruct (existsb _ _); cbn;
      destruct (network_chain_id (self w)) as [e |]; cbn; auto;
      destruct (e =? c); cbn; auto.
  - destruct (poa || (len >? MAX_EXTRADATA_LENGTH)); cbn;
      [ destruct (existsb _ _); cbn | ];
      destruct (network_chain_id (self w)) as [e |]; cbn; auto;
      destruct (e =? c); cbn; auto.
Qed.

Lemma bind_ok {S A B : Type} (m : State S A) (k : A -> State S B)
    (w w' : S) (a : A) :
  m w = (inr a, w') -> bind m k w = k a w'.
Proof. intros E. unfold bind. rewrite E. reflexivity. Qed.

Arguments bind_ok {S A B m} k {w w' a} _.

(** The tuning step run on a connected provider. *)
Lemma complete_connect_tune_run (w : world) (nd : node) :
  connected_to w nd ->
  exists w1,
    BaseGethProvider.client_version w = (inr (node_client_version nd), w1) /\
    BaseGethProvider._complete_connect_tune w = (inr tt, tuned nd w1).
Proof.
  intros Hc.
  destruct (client_version_connected Hc) as (w1 & Hv & (h & Hw1 & _) & Hcv & _).
  pose proof (client_version_cached _ Hw1 Hcv) as Hv1.
  exists w1. split; [exact Hv |].
  unfold BaseGethProvider._complete_connect_tune, tuned.
  rewrite (bind_ok _ Hv).
  destruct (Py.contains "geth" _); [apply log_connection_run |].
  rewrite (bind_ok _ Hv1).
  destruct (Py.contains "erigon" _).
  { rewrite (bind_ok _ (log_connection_run "Erigon" w1)). reflexivity. }
  rewrite (bind_ok _ Hv1).
  destruct (Py.contains "nethermind" _).
  { rewrite (bind_ok _ (log_connection_run "Nethermind" w1)). reflexivity. }
  rewrite (bind_ok _ Hv1). reflexivity.
Qed.

(** What the tuning step leaves, by the names the lower-cased version string
    contains, and that the rest of [_complete_connect] keeps it. *)
Lemma complete_connect_tuning (w : world) (nd : node) :
  connected_to w nd ->
  let v := Py.lower (node_client_version nd) in
  let r := fst (BaseGethProvider._complete_connect_tune w) in
  let w' := snd (BaseGethProvider._complete_connect_tune w) in
  let w'' := snd (BaseGethProvider._complete_connect w) in
  r = inr tt /\
  concurrency (self w'') = concurrency (self w') /\
  block_page_size (self w'') = block_page_size (self w') /\
  (Py.contains "geth" v = true ->
     concurrency (self w') = concurrency (self w) /\
     block_page_size (self w') = block_page_size (self w) /\
     logged w' = (logged w ++ [connection_record "Geth" w])%list) /\
  (Py.contains "geth" v = false -> Py.contains "erigon" v = true ->
     concurrency (self w') = 8 /\ block_page_size (self w') = 40000 /\
     logged w' = (logged w ++ [connection_record "Erigon" w])%list) /\
  (Py.contains "geth" v = false -> Py.contains "erigon" v = false ->
   Py.contains "nethermind" v = true ->
     concurrency (self w') = 32 /\ block_page_size (self w') = 50000 /\
     logged w' = (logged w ++ [connection_record "Nethermind" w])%list) /\
  (Py.contains "geth" v = false -> Py.contains "erigon" v = false ->
   Py.contains "nethermind" v = false ->
     concurrency (self w') = concurrency (self w) /\
     block_page_size (self w') = block_page_size (self w) /\
     logged w' = (logged w ++ [non_geth_warning (node_client_version nd)])%list).
Proof.
  intros Hc v r w' w''. subst v r w' w''.
  destruct (client_version_connected Hc)
    as (w1 & Hv & _ & _ & _ & Hl & Hcc & Hbp & Hu & Hi).
  destruct (complete_connect_tune_run Hc) as (w1' & Hv' & Ht).
  rewrite Hv in Hv'. injection Hv' as <-.
  assert (Hrec : forall name, connection_record name w1 = connection_record name w).
  { intros name. unfold connection_record. rewrite Hu, Hi. reflexivity. }
  pose proof (complete_connect_checks_keeps_tunables (tuned nd w1)) as (Hk1 & Hk2 & _ & _).
  unfold BaseGethProvider._complete_connect.
  rewrite (bind_ok _ Ht), Ht. cbn [fst snd].
  split; [reflexivity |]. split; [exact Hk1 |]. split; [exact Hk2 |].
  unfold tuned.
  destruct (Py.contains "geth" _); [| destruct (Py.contains "erigon" _);
                                      [| destruct (Py.contains "nethermind" _)]];
    cbn; rewrite ?Hrec, ?Hl, ?Hcc, ?Hbp;
    repeat split; intros; try discriminate; reflexivity.
Qed.

(** C6 as amended: the tuning step of [_complete_connect] goes by the first
    name that the lower-cased version string contains, in the order "geth",
    "erigon", "nethermind".  It never raises.  "geth" leaves concurrency and
    page size as they were and logs the connection; "erigon" without "geth"
    sets 8 and 40000; "nethermind" without the other two sets 32 and 50000;
    a string with none of the three leaves both as they were (16 and 5000
    on a provider that has not been tuned before) and logs one warning.
    The rest of [_complete_connect] does not touch the two values. *)
Theorem client_tuning_by_version (w : world) (nd : node) :
  connected_to w nd ->
  let v := Py.lower (node_client_version nd) in
  let r := fst (BaseGethProvider._complete_connect_tune w) in
  let w' := snd (BaseGethProvider._complete_connect_tune w) in
  let w'' := snd (BaseGethProvider._complete_connect w) in
  r = inr tt /\
  concurrency (self w'') = concurrency (self w') /\
  block_page_size (self w'') = block_page_size (self w') /\
  (Py.contains "geth" v = true ->
     concurrency (self w') = concurrency (self w) /\
     block_page_size (self w') = block_page_size (self w) /\
     logged w' = (logged w ++ [connection_record "Geth" w])%list) /\
  (Py.contains "geth" v = false -> Py.contains "erigon" v = true ->
     concurrency (self w') = 8 /\ block_page_size (self w') = 40000 /\
     logged w' = (logged w ++ [connection_record "Erigon" w])%list) /\
  (Py.contains "geth" v = false -> Py.contains "erigon" v = false ->
   Py.contains "nethermind" v = true ->
     concurrency (self w') = 32 /\ block_page_size (self w') = 50000 /\
     logged w' = (logged w ++ [connection_record "Nethermind" w])%list) /\
  (Py.contains "geth" v = false -> Py.contains "erigon" v = false ->
   Py.contains "nethermind" v = false ->
     concurrency (self w') = concurrency (self w) /\
     block_page_size (self w') = block_page_size (self w) /\
     logged w' = (logged w ++ [non_geth_warning (node_client_version nd)])%list).
Proof. exact (@complete_connect_tuning w nd). Qed.

Lemma client_tuning_by_version_witness :
  let w' := snd (BaseGethProvider._complete_connect_tune (world_at erigon_node)) in
  concurrency (self w') = 8 /\ block_page_size (self w') = 40000.
Proof.
  assert (Hc : connected_to (world_at erigon_node) erigon_node).
  { eexists. cbn. repeat split. left. reflexivity. }
  pose proof (client_tuning_by_version Hc) as H. cbv zeta in H.
  destruct H as (_ & _ & _ & _ & He & _).
  destruct (He eq_refl eq_refl) as (H1 & H2 & _).
  split; assumption.
Defined.

(** C6 as stated fails: a version string that contains "erigon" and also
    "geth" is taken for Geth, and concurrency and page size stay at 16 and
    5000 instead of 8 and 40000. *)
Lemma geth_erigon_version_keeps_defaults :
  let w := world_at geth_erigon_node in
  let w' := snd (BaseGethProvider._complete_connect w) in
  Py.contains "erigon" (Py.lower (node_client_version geth_erigon_node)) = true /\
  fst (BaseGethProvider._complete_connect w) = inr tt /\
  concurrency (self w') = 16 /\ block_page_size (self w') = 5000.
Proof. cbn. repeat split; reflexivity. Qed.

Example tuning_of_sample_nodes :
  map (fun nd =>
         let w' := snd (BaseGethProvider._complete_connect (world_at nd)) in
         (concurrency (self w'), block_page_size (self w')))
      [geth_node; erigon_node; nethermind_node; besu_node]
  = [(16, 5000); (8, 40000); (32, 50000); (16, 5000)].
Proof. reflexivity. Qed.

Example warning_for_unknown_client :
  logged (snd (BaseGethProvider._complete_connect (world_at besu_node)))
  = [Log WARNING "Connecting Geth plugin to non-Geth client 'besu'."].
Proof. reflexivity. Qed.

(** ** Connecting again *)

(** [_set_web3] with a node listening: a handle on that node, no cached
    version, everything else as before. *)
Lemma set_web3_run (w : world) (nd : node) :
  listening w = Some nd ->
  exists ws,
    BaseGethProvider._set_web3 w = (inr tt, ws) /\
    connected_to ws nd /\
    _client_version (self ws) = None /\
    concurrency (self ws) = concurrency (self w) /\
    block_page_size (self ws) = block_page_size (self w).
Proof.
  intros Hl.
  unfold BaseGethProvider._set_web3, _create_web3, bind, get_self, put_self.
  cbn. rewrite Hl.
  eexists. split; [reflexivity |]. cbn. repeat split.
  eexists. cbn. repeat split. left. reflexivity.
Qed.

Lemma is_connected_run (w : world) (nd : node) :
  connected_to w nd -> BaseGethProvider.is_connected w = (inr true, w).
Proof.
  intros (h & Hw & Hr & _).
  unfold BaseGethProvider.is_connected, bind, get_self, ret.
  rewrite Hw, Hr. reflexivity.
Qed.

(** After [Geth.connect] to [nd], whether it ends well or not, the tunables
    are those the tuning step leaves from the values before the call. *)
Lemma geth_connect_tunables (w : world) (nd : node) :
  listening w = Some nd ->
  let v := Py.lower (node_client_version nd) in
  let w' := snd (Geth.connect w) in
  _client_version (self w') = Some (node_client_version nd) /\
  (Py.contains "geth" v = true ->
     concurrency (self w') = concurrency (self w) /\
     block_page_size (self w') = block_page_size (self w)) /\
  (Py.contains "geth" v = false -> Py.contains "erigon" v = true ->
     concurrency (self w') = 8 /\ block_page_size (self w') = 40000).
Proof.
  intros Hl v w'. subst v w'.
  destruct (set_web3_run w Hl) as (ws & Hs & Hc & _ & Hcc & Hbp).
  unfold Geth.connect.
  rewrite (bind_ok _ Hs), (bind_ok _ (is_connected_run Hc)). cbn [negb].
  pose proof (complete_connect_tuning Hc) as H. cbv zeta in H.
  destruct H as (_ & H1 & H2 & Hg & He & _).
  rewrite H1, H2, <- Hcc, <- Hbp.
  split.
  - destruct (complete_connect_tune_run Hc) as (w1 & Hv & Ht).
    destruct (client_version_connected Hc) as (w1' & Hv' & _ & Hcv & _).
    rewrite Hv in Hv'. injection Hv' as <-.
    unfold BaseGethProvider._complete_connect. rewrite (bind_ok _ Ht).
    pose proof (complete_connect_checks_keeps_tunables (tuned nd w1)) as (_ & _ & _ & Hk).
    cbv zeta in Hk. rewrite Hk. unfold tuned.
    destruct (Py.contains "geth" _); [| destruct (Py.contains "erigon" _);
                                        [| destruct (Py.contains "nethermind" _)]];
      cbn; exact Hcv.
  - split.
    + intros Eg. destruct (Hg Eg) as (Ha & Hb & _). split; assumption.
    + intros Eg Ee. destruct (He Eg Ee) as (Ha & Hb & _). split; assumption.
Qed.

Lemma disconnect_run (w : world) :
  let w' := snd (BaseGethProvider.disconnect w) in
  fst (BaseGethProvider.disconnect w) = inr tt /\
  _web3 (self w') = None /\ _client_version (self w') = None /\
  concurrency (self w') = concurrency (self w) /\
  block_page_size (self w') = block_page_size (self w).
Proof. cbn. repeat split. Qed.

(** C8, what the code does: a provider that was connected to an Erigon node
    (version with "erigon" and without "geth"), disconnected, and connected
    again to a node whose version contains "geth" reads the new client
    version but keeps concurrency 8 and page size 40000 from the first
    connection: [disconnect] and [_set_web3] reset the cached version only,
    and the Geth branch of the tuning step assigns nothing. *)
Theorem tunables_survive_reconnect (w0 : world) (nd1 nd2 : node) :
  listening w0 = Some nd1 ->
  Py.contains "geth" (Py.lower (node_client_version nd1)) = false ->
  Py.contains "erigon" (Py.lower (node_client_version nd1)) = true ->
  Py.contains "geth" (Py.lower (node_client_version nd2)) = true ->
  let w1 := snd (Geth.connect w0) in
  let w2 := snd (BaseGethProvider.disconnect w1) in
  let w3 := snd (Geth.connect (set_listening (Some nd2) w2)) in
  _client_version (self w3) = Some (node_client_version nd2) /\
  concurrency (self w3) = 8 /\
  block_page_size (self w3) = 40000.
Proof.
  intros Hl Hg1 He1 Hg2 w1 w2 w3.
  pose proof (geth_connect_tunables w0 Hl) as H. cbv zeta in H.
  destruct H as (_ & _ & H1). destruct (H1 Hg1 He1) as (Hc1 & Hp1).
  pose proof (disconnect_run w1) as H. cbv zeta in H.
  destruct H as (_ & _ & _ & Hc2 & Hp2).
  assert (Hl2 : listening (set_listening (Some nd2) w2) = Some nd2) by reflexivity.
  pose proof (geth_connect_tunables _ Hl2) as H. cbv zeta in H.
  destruct H as (Hv3 & H3 & _). destruct (H3 Hg2) as (Hc3 & Hp3).
  subst w3. split; [exact Hv3 |].
  rewrite Hc3, Hp3. cbn [set_listening self].
  subst w2. rewrite Hc2, Hp2. subst w1. split; assumption.
Qed.

Lemma tunables_survive_reconnect_witness :
  let w1 := snd (Geth.connect (world_before erigon_node)) in
  let w2 := snd (BaseGethProvider.disconnect w1) in
  let w3 := snd (Geth.connect (set_listening (Some geth_node) w2)) in
  _client_version (self w3) = Some (node_client_version geth_node) /\
  concurrency (self w3) = 8 /\
  block_page_size (self w3) = 40000.
Proof.
  apply (@tunables_survive_reconnect (world_before erigon_node) erigon_node geth_node);
    reflexivity.
Defined.

(** The same Geth node reached by a provider that was never connected. *)
Example first_connection_to_geth :
  let '(r, w) := Geth.connect (world_before geth_node) in
  r = inr tt /\ concurrency (self w) = 16 /\ block_page_size (self w) = 5000.
Proof. vm_compute. repeat split. Qed.

Example reconnect_erigon_then_geth :
  let '(r1, w1) := Geth.connect (world_before erigon_node) in
  let '(r2, w2) := BaseGethProvider.disconnect w1 in
  let '(r3, w3) := Geth.connect (set_listening (Some geth_node) w2) in
  (r1, r2, r3) = (inr tt, inr tt, inr tt) /\
  (concurrency (self w3), block_page_size (self w3)) = (8, 40000).
Proof. vm_compute. repeat split. Qed.

(** ** The development node *)

(** C7: [from_uri] refuses every host other than "localhost" and
    "127.0.0.1" with a [ConnectionError] before the constructor runs: no
    supervisor object comes back and the machine is exactly as it was, so
    no directory was made, no chain initialised and no process started. *)
Theorem from_uri_refuses_non_local_host
    (G : GethTools) (u : parsed_uri) (data_folder : string)
    (kwargs : from_uri_kwargs) (o : os) :
  host u <> Some "localhost" -> host u <> Some "127.0.0.1" ->
  GethDevProcess.from_uri u data_folder kwargs o
  = (inl (Raise ConnectionError
            ("Unable to start Geth on non-local host "
               ++ GethDevProcess.show_host (host u) ++ ".")),
     o).
Proof.
  intros H1 H2. unfold GethDevProcess.from_uri.
  assert (Hl : GethDevProcess.is_local (host u) = false).
  { unfold GethDevProcess.is_local. destruct (host u) as [name |]; [| reflexivity].
    destruct (String.eqb_spec name "localhost") as [-> | _]; [congruence |].
    destruct (String.eqb_spec name "127.0.0.1") as [-> | _]; [congruence |].
    reflexivity. }
  rewrite Hl. reflexivity.
Qed.

Lemma from_uri_refuses_non_local_host_witness :
  GethDevProcess.from_uri (H := sample_tools)
    (URL (Some "node.example.org") (Some 8545)) "/home/user/.ape/geth/dev"
    (Kwargs None None None) clean_machine
  = (inl (Raise ConnectionError
            "Unable to start Geth on non-local host node.example.org."),
     clean_machine).
Proof.
  apply (@from_uri_refuses_non_local_host sample_tools
           (URL (Some "node.example.org") (Some 8545))); discriminate.
Defined.

(** On a local host the constructor does run. *)
Example from_uri_local_host :
  let '(r, o) := GethDevProcess.from_uri (H := sample_tools)
                   (URL (Some "localhost") None) "/data" (Kwargs None None None)
                   clean_machine in
  (exists p, r = inr p /\ GethDevProcess._port p = 8545) /\
  directories o = ["/data/geth-logs"; "/data"] /\
  List.length (chains o) = 1%nat /\ children o = [].
Proof. cbn. repeat split. eexists. split; reflexivity. Qed.

(** ** The genesis document *)

Lemma hex_digit_not_x (c : ascii) (d : Z) :
  Py.hex_digit c = Some d -> Ascii.eqb "x" c = false.
Proof.
  intros Hd. destruct (Ascii.eqb_spec "x"%char c) as [<- | _]; [| reflexivity].
  discriminate Hd.
Qed.

Lemma hex_digit_range (c : ascii) (d : Z) :
  Py.hex_digit c = Some d -> 0 <= d < 16.
Proof.
  unfold Py.hex_digit.
  destruct (_ && _) eqn:E1; [intros [= <-]; lia |].
  destruct (_ && _) eqn:E2 in |- *; [intros [= <-]; lia |].
  destruct (_ && _) eqn:E3 in |- *; [intros [= <-]; lia | discriminate].
Qed.

Lemma remove_all_fuel_step (k : nat) (old : string) (c : ascii) (t : string) :
  Py.remove_all_fuel (S k) old (String c t)
  = if Py.startswith old (String c t)
    then Py.remove_all_fuel k old (Py.drop (String.length old) (String c t))
    else String c (Py.remove_all_fuel k old t).
Proof. reflexivity. Qed.

(** A string of hexadecimal digits has no "0x" in it to remove. *)
Lemma remove_all_fuel_hex (h : string) :
  all_hex h = true ->
  forall k, (String.length h <= k)%nat -> Py.remove_all_fuel k "0x" h = h.
Proof.
  induction h as [| c t IH]; intros Hh k Hk.
  - destruct k; reflexivity.
  - destruct k as [| k]; [cbn in Hk; lia |].
    cbn [all_hex] in Hh. destruct (Py.hex_digit c) eqn:Hc; [| discriminate].
    rewrite remove_all_fuel_step.
    assert (Hs : Py.startswith "0x" (String c t) = false).
    { destruct t as [| c2 t2]; cbn [Py.startswith]; [apply andb_false_r |].
      cbn [all_hex] in Hh. destruct (Py.hex_digit c2) eqn:Hc2; [| discriminate].
      rewrite (hex_digit_not_x _ Hc2). apply andb_false_r. }
    rewrite Hs. f_equal. apply IH; [exact Hh | cbn in Hk; lia].
Qed.

(** Line 96: the sealer is the account address without its prefix. *)
Lemma remove_all_0x_prefix (h : string) :
  all_hex h = true -> Py.remove_all "0x" ("0x" ++ h) = h.
Proof.
  intros Hh. unfold Py.remove_all.
  change ("0x" ++ h) with (String "0" (String "x" h)).
  cbn [String.length]. rewrite remove_all_fuel_step.
  change (Py.startswith "0x" (String "0" (String "x" h))) with true.
  cbv iota.
  change (Py.drop (String.length "0x") (String "0" (String "x" h))) with h.
  apply remove_all_fuel_hex; [exact Hh | lia].
Qed.

Lemma unhex_app (x : list Z) :
  forall a b, unhex a = Some x ->
    unhex (a ++ b) = option_map (fun y => (x ++ y)%list) (unhex b).
Proof.
  induction x as [| v x IH]; intros a b Ha.
  - destruct a as [| c1 [| c2 t]]; cbn in Ha; try discriminate.
    + cbn. destruct (unhex b); reflexivity.
    + destruct (Py.hex_digit c1), (Py.hex_digit c2), (unhex t); discriminate.
  - destruct a as [| c1 [| c2 t]]; cbn in Ha; try discriminate.
    cbn [append unhex].
    destruct (Py.hex_digit c1) as [d1 |]; [| discriminate].
    destruct (Py.hex_digit c2) as [d2 |]; [| discriminate].
    destruct (unhex t) as [r |] eqn:Ht; [| discriminate].
    injection Ha as <- <-.
    rewrite (IH t b Ht). destruct (unhex b); reflexivity.
Qed.

(** [2 * n] hexadecimal digits denote [n] bytes. *)
Lemma unhex_all_hex (n : nat) :
  forall h, all_hex h = true -> String.length h = (2 * n)%nat ->
    exists bs, unhex h = Some bs /\ List.length bs = n /\
               Forall (fun b => 0 <= b < 256) bs.
Proof.
  induction n as [| n IH]; intros h Hh Hl.
  - destruct h; [| discriminate]. exists []. repeat split. constructor.
  - destruct h as [| c1 [| c2 t]]; cbn in Hl; try lia.
    cbn in Hh.
    destruct (Py.hex_digit c1) as [d1 |] eqn:H1; [| discriminate].
    destruct (Py.hex_digit c2) as [d2 |] eqn:H2; [| discriminate].
    destruct (IH t Hh) as (bs & Hb & Hn & Hr); [lia |].
    exists (16 * d1 + d2 :: bs). cbn [unhex]. rewrite H1, H2, Hb.
    repeat split; [cbn; lia |].
    constructor; [| exact Hr].
    pose proof (hex_digit_range _ H1). pose proof (hex_digit_range _ H2). lia.
Qed.

Lemma mkdir_run (path : string) (o : os) :
  exists o', GethDevProcess.mkdir path o = (inr tt, o') /\ chains o' = chains o.
Proof. eexists. split; reflexivity. Qed.

Lemma clean_run (data_dir : string) (o : os) :
  exists o', GethDevProcess._clean data_dir o = (inr tt, o') /\ chains o' = chains o.
Proof.
  unfold GethDevProcess._clean, GethDevProcess.exists_, bind.
  destruct (existsb _ _); eexists; split; reflexivity.
Qed.

Lemma initialize_chain_run (genesis : json) (kw : geth_kwargs) (o : os) :
  GethDevProcess.initialize_chain genesis kw o
  = (inr tt, snd (GethDevProcess.initialize_chain genesis kw o)).
Proof. reflexivity. Qed.

(** C3 as amended: with geth installed and the account helper returning
    "0x" followed by 40 hexadecimal digits [h], the constructor succeeds,
    initialises exactly one more chain, and the genesis document it hands
    over has [extraData] equal to "0x", 64 zeros, [h], 130 zeros.  That is
    117 bytes: 32 zero bytes, the 20 bytes of the one sealer address, 65
    zero bytes.  The same [h] is the [miner_etherbase] of the node. *)
Theorem genesis_extra_data_layout
    (G : GethTools) (data_dir : string) (hostname : option string) (port : Z)
    (mnemonic : string) (number_of_accounts chain_id : Z)
    (initial_balance : Z + string) (executable : option string)
    (o : os) (h : string) :
  geth_on_path o = true ->
  ensure_account_exists
    (GethDevProcess.construct_test_chain_kwargs data_dir executable hostname port chain_id)
  = "0x" ++ h ->
  all_hex h = true ->
  String.length h = 40%nat ->
  exists p o' genesis sealer,
    GethDevProcess.__init__ data_dir hostname port mnemonic number_of_accounts
      chain_id initial_balance executable o = (inr p, o') /\
    chains o' = (chains o ++ [(genesis, GethDevProcess.geth_kwargs_ p)])%list /\
    miner_etherbase (GethDevProcess.geth_kwargs_ p) = Some h /\
    json_get "extraData" genesis
    = Some (JStr ("0x" ++ Py.repeat_char "0" 64 ++ h ++ Py.repeat_char "0" 130)) /\
    unhex h = Some sealer /\ List.length sealer = 20%nat /\
    Forall (fun b => 0 <= b < 256) sealer /\
    extra_data_bytes genesis = Some (repeat 0 32 ++ sealer ++ repeat 0 65)%list /\
    List.length (repeat 0 32 ++ sealer ++ repeat 0 65)%list = 117%nat.
Proof.
  intros Hg He Hh Hl.
  destruct (@unhex_all_hex 20 h Hh Hl) as (sealer & Hu & Hn & Hr).
  unfold GethDevProcess.__init__. rewrite Hg. cbn [negb].
  destruct (mkdir_run data_dir o) as (o1 & E1 & C1).
  rewrite (bind_ok _ E1). cbv beta zeta.
  rewrite He, (remove_all_0x_prefix h Hh).
  destruct (clean_run data_dir o1) as (o2 & E2 & C2).
  rewrite (bind_ok _ E2).
  rewrite (bind_ok _ (initialize_chain_run _ _ o2)).
  destruct (mkdir_run data_dir
              (snd (GethDevProcess.initialize_chain
                      (GethDevProcess.genesis_data chain_id h
                         (generate_dev_accounts mnemonic number_of_accounts)
                         initial_balance)
                      (GethDevProcess.with_miner_etherbase h
                         (GethDevProcess.construct_test_chain_kwargs data_dir
                            executable hostname port chain_id)) o2)))
    as (o3 & E3 & C3).
  rewrite (bind_ok _ E3).
  destruct (mkdir_run (data_dir ++ "/geth-logs") o3) as (o4 & E4 & C4).
  rewrite (bind_ok _ E4). unfold ret.
  do 3 eexists. exists sealer. split; [reflexivity |].
  cbn [GethDevProcess.geth_kwargs_].
  split; [rewrite C4, C3; cbn [snd GethDevProcess.initialize_chain chains];
          rewrite C2, C1; reflexivity |].
  split; [reflexivity |].
  split; [reflexivity |].
  split; [exact Hu |]. split; [exact Hn |]. split; [exact Hr |].
  split; [| rewrite !length_app, !repeat_length, Hn; reflexivity].
  unfold extra_data_bytes.
  change (json_get "extraData" (GethDevProcess.genesis_data chain_id h
            (generate_dev_accounts mnemonic number_of_accounts) initial_balance))
    with (Some (JStr ("0x" ++ Py.repeat_char "0" 64 ++ h ++ Py.repeat_char "0" 130))).
  change (Py.startswith "0x" ("0x" ++ Py.repeat_char "0" 64 ++ h
                                   ++ Py.repeat_char "0" 130)) with true.
  cbv iota.
  change (Py.drop 2 ("0x" ++ Py.repeat_char "0" 64 ++ h ++ Py.repeat_char "0" 130))
    with (Py.repeat_char "0" 64 ++ (h ++ Py.repeat_char "0" 130)).
  rewrite (@unhex_app (repeat 0 32) (Py.repeat_char "0" 64) _ eq_refl).
  rewrite (@unhex_app sealer h _ Hu).
  change (unhex (Py.repeat_char "0" 130)) with (Some (repeat 0 65)).
  reflexivity.
Qed.

Lemma genesis_extra_data_layout_witness :
  exists p o' genesis sealer,
    GethDevProcess.__init__ (H := sample_tools) "/data" (Some "localhost") 8545
      "test test test" 3 1337 (inl default_initial_balance) None clean_machine
    = (inr p, o') /\
    chains o' = (chains clean_machine ++ [(genesis, GethDevProcess.geth_kwargs_ p)])%list /\
    miner_etherbase (GethDevProcess.geth_kwargs_ p)
    = Some "00a329c0648769a73afac7f9381e08fb43dbea72" /\
    json_get "extraData" genesis
    = Some (JStr ("0x" ++ Py.repeat_char "0" 64
                    ++ "00a329c0648769a73afac7f9381e08fb43dbea72"
                    ++ Py.repeat_char "0" 130)) /\
    unhex "00a329c0648769a73afac7f9381e08fb43dbea72" = Some sealer /\
    List.length sealer = 20%nat /\
    Forall (fun b => 0 <= b < 256) sealer /\
    extra_data_bytes genesis = Some (repeat 0 32 ++ sealer ++ repeat 0 65)%list /\
    List.length (repeat 0 32 ++ sealer ++ repeat 0 65)%list = 117%nat.
Proof.
  apply (@genesis_extra_data_layout sample_tools "/data" (Some "localhost") 8545
           "test test test" 3 1337 (inl default_initial_balance) None clean_machine
           "00a329c0648769a73afac7f9381e08fb43dbea72"); reflexivity.
Defined.

(** C3 as stated fails: the [extraData] the constructor writes is 117 bytes
    long, not 66. *)
Lemma genesis_extra_data_is_not_66_bytes :
  let n := option_map (@List.length Z)
             (match sample_genesis with
              | Some genesis => extra_data_bytes genesis
              | None => None
              end) in
  n = Some 117%nat /\ n <> Some 66%nat.
Proof. vm_compute. split; [reflexivity | discriminate]. Qed.

(** ** The streaming reader *)

Section ReaderProofs.
Context {reader : Ijson}.

Import StreamRequest.

(** What one turn of the loop from an empty [results] gives: either no
    chunk completes anything and the generator ends, or the first
    completed item is yielded and the rest waits in the suspended state. *)
Lemma loop_from_empty (chunks : list bytes) :
  forall c : coro,
    (completed_by c chunks = [] /\ loop c [] chunks = (Finished, StopIteration)) \/
    (exists x xs c' results rest,
        completed_by c chunks = x :: xs /\
        loop c [] chunks = (Suspended c' results 1 rest, Yield x) /\
        (skipn 1 results ++ completed_by c' rest)%list = xs /\
        (1 <= List.length results)%nat /\
        exists before chunk, send before chunk = (c', results)).
Proof.
  induction chunks as [| chunk rest IH]; intros c.
  - left. split; reflexivity.
  - cbn [completed_by loop]. destruct (send c chunk) as [c' completed] eqn:Es.
    cbn [app]. destruct completed as [| x l].
    + cbn [app]. exact (IH c').
    + right. exists x, (l ++ completed_by c' rest)%list, c', (x :: l), rest.
      repeat split; cbn; try lia.
      exists c, chunk. exact Es.
Qed.

(** Draining a suspended generator gives what is left of [results] and
    then what the remaining chunks complete, and ends. *)
Lemma consume_suspended (post : json -> response) (fuel : nat) :
  forall (c : coro) (results : list item) (cursor : nat) (rest : list bytes),
    (List.length (skipn cursor results ++ completed_by c rest) < fuel)%nat ->
    consume post fuel (Suspended c results cursor rest)
    = ((skipn cursor results ++ completed_by c rest)%list, Some StopIteration).
Proof.
  induction fuel as [| k IH]; intros c results cursor rest Hf; [lia |].
  cbn [consume next].
  destruct (nth_error results cursor) as [x |] eqn:En.
  - assert (Hs : skipn cursor results = x :: skipn (S cursor) results).
    { clear - En. revert cursor En.
      induction results as [| y ys IHr]; intros [| n] En; cbn in *;
        try discriminate; [congruence | apply IHr; exact En]. }
    rewrite Hs in *. cbn [app List.length] in Hf.
    rewrite IH by lia. reflexivity.
  - apply nth_error_None in En.
    rewrite (skipn_all2 results En) in *. cbn [app] in *.
    destruct (loop_from_empty rest c)
      as [(Hc & ->) | (x & xs & c' & res & rest' & Hc & -> & Hx & _)].
    + rewrite Hc. reflexivity.
    + rewrite Hc in *. cbn [List.length] in Hf.
      rewrite IH by (rewrite Hx; lia). rewrite Hx. reflexivity.
Qed.

(** Draining a generator that has not started: every item the chunks of
    the response complete, in order, and then the end. *)
Lemma consume_created (post : json -> response) (payload : json)
    (iter_path : string) (fuel : nat) :
  raise_for_status (post payload) = inr tt ->
  (List.length (completed_by (items_coro iter_path) (iter_content (post payload)))
   < fuel)%nat ->
  consume post fuel (Created payload iter_path)
  = (completed_by (items_coro iter_path) (iter_content (post payload)),
     Some StopIteration).
Proof.
  intros Hs Hf. destruct fuel as [| k]; [lia |].
  cbn [consume next]. rewrite Hs.
  destruct (loop_from_empty (iter_content (post payload)) (items_coro iter_path))
    as [(Hc & ->) | (x & xs & c' & res & rest' & Hc & -> & Hx & _)].
  - rewrite Hc. reflexivity.
  - rewrite Hc in *. cbn [List.length] in Hf.
    rewrite consume_suspended by (rewrite Hx; lia).
    rewrite Hx. reflexivity.
Qed.




End ReaderProofs.





Example stream_whole_and_pieces :
  let g := StreamRequest._stream_request (H := line_reader)
             "debug_traceTransaction" [JStr "0xabc"] "result.structLogs.item" in
  StreamRequest.consume post_whole 5 g = ([[49]; [50]], Some StreamRequest.StopIteration) /\
  StreamRequest.consume post_pieces 5 g = ([[49]; [50]], Some StreamRequest.StopIteration).
Proof. vm_compute. split; reflexivity. Qed.

(** An error status is raised at the first [next], before anything is
    yielded or sent to the coroutine. *)
Example stream_error_status :
  StreamRequest.next (H := line_reader) (fun _ => Response 500 [[49; 10]])
    (StreamRequest._stream_request "debug_traceTransaction" [] "result.item")
  = (StreamRequest.Finished,
     StreamRequest.Raised (Raise HTTPError "HTTP error status")).
Proof. reflexivity. Qed.

(* ===================================================================== *)
(** * Further properties of the module *)
(* ===================================================================== *)

(** ** [_make_request] *)

(** X1: [_make_request] sends exactly the one request and classifies the
    outcome completely: a result is returned as it is; a [ProviderError]
    whose message has the unsupported-method phrase becomes an
    [APINotImplementedError] naming the endpoint; every other exception is
    re-raised as the node raised it. *)
Theorem make_request_outcome (w : world) (nd : node) (e : string) (ps : list json) :
  connected_to w nd ->
  snd (BaseGethProvider._make_request e ps w) = add_sent (Request e ps) w /\
  fst (BaseGethProvider._make_request e ps w)
  = match answer nd (Request e ps) with
    | inr v => inr v
    | inl err =>
        if issubclass (exn_cls err) ProviderError
           && Py.contains unsupported_phrase (exn_msg err)
        then inl (Raise APINotImplementedError
                    ("RPC method '" ++ e ++ "' is not implemented by this node instance."))
        else inl err
    end.
Proof.
  intros Hc. unfold BaseGethProvider._make_request, try_except.
  rewrite (super_make_request_connected e ps Hc).
  destruct (answer nd (Request e ps)) as [err | v]; [| split; reflexivity].
  unfold caught_by. cbn [existsb]. rewrite orb_false_r.
  destruct (issubclass (exn_cls err) ProviderError); [| split; reflexivity].
  unfold unsupported_phrase. cbn [andb].
  destruct (Py.contains _ (exn_msg err)); split; reflexivity.
Qed.

Lemma make_request_outcome_witness :
  let w := world_at geth_node in
  snd (BaseGethProvider._make_request "trace_transaction" [JStr "0xabc"] w)
  = add_sent (parity_request "0xabc") w /\
  fst (BaseGethProvider._make_request "trace_transaction" [JStr "0xabc"] w)
  = inl (Raise APINotImplementedError
           "RPC method 'trace_transaction' is not implemented by this node instance.").
Proof.
  intro w.
  apply (@make_request_outcome w geth_node "trace_transaction" [JStr "0xabc"]).
  eexists. cbn. repeat split. left. reflexivity.
Defined.

(** ** [get_call_tree], first success wins *)

(** The parity step on a node that answers with a trace that decodes. *)
Lemma parity_call_tree_ok (T : EvmTrace) (w : world) (nd : node) (txn_hash : string)
    (v : json) (traces : ParityTraceList) (evm_call : EvmCallTreeNode)
    (tree : CallTreeNode) :
  connected_to w nd ->
  answer nd (parity_request txn_hash) = inr v ->
  truthy v = true ->
  parse_obj v = inr traces ->
  get_calltree_from_parity_trace traces = inr evm_call ->
  _create_call_tree_node evm_call (Some txn_hash) = inr tree ->
  BaseGethProvider._get_parity_call_tree txn_hash w
  = (inr tree, add_sent (parity_request txn_hash) w).
Proof.
  intros Hc Ha Ht Hp Hg Hn.
  unfold BaseGethProvider._get_parity_call_tree.
  unfold parity_request in Ha.
  rewrite (bind_ok _ (make_request_ok _ _ Hc Ha)).
  rewrite Ht. cbn [negb]. unfold bind, lift.
  rewrite Hp, Hg, Hn. reflexivity.
Qed.

(** X2: when the parity-style trace is there and decodes, [get_call_tree]
    returns the tree built from it and stops: [trace_transaction] is the
    only request, the call tracer is not asked, whatever the client is. *)
Theorem call_tree_from_parity_trace
    (T : EvmTrace) (w : world) (nd : node) (txn_hash : string)
    (v : json) (traces : ParityTraceList) (evm_call : EvmCallTreeNode)
    (tree : CallTreeNode) :
  connected_to w nd ->
  answer nd (parity_request txn_hash) = inr v ->
  truthy v = true ->
  parse_obj v = inr traces ->
  get_calltree_from_parity_trace traces = inr evm_call ->
  _create_call_tree_node evm_call (Some txn_hash) = inr tree ->
  fst (BaseGethProvider.get_call_tree txn_hash w) = inr tree /\
  sent (snd (BaseGethProvider.get_call_tree txn_hash w))
  = (sent w ++ [parity_request txn_hash])%list.
Proof.
  intros Hc Ha Ht Hp Hg Hn.
  destruct (client_version_connected Hc) as (w1 & Hv & Hc1 & _ & Hs & _).
  pose proof (@parity_call_tree_ok T w1 nd txn_hash v traces evm_call tree
                Hc1 Ha Ht Hp Hg Hn) as Hpar.
  unfold BaseGethProvider.get_call_tree. rewrite (bind_ok _ Hv).
  destruct (Py.contains "erigon" _).
  - rewrite Hpar. cbn. rewrite Hs. split; reflexivity.
  - unfold try_except. rewrite Hpar. cbn. rewrite Hs. split; reflexivity.
Qed.

Lemma call_tree_from_parity_trace_witness :
  let w := world_at erigon_node in
  fst (BaseGethProvider.get_call_tree (H := sample_trace) "0xabc" w)
  = inr (JArr [JObj [("type", JStr "call")]], Some "0xabc") /\
  sent (snd (BaseGethProvider.get_call_tree (H := sample_trace) "0xabc" w))
  = [parity_request "0xabc"].
Proof.
  intro w.
  apply (@call_tree_from_parity_trace sample_trace w erigon_node "0xabc"
           (JArr [JObj [("type", JStr "call")]]) [JObj [("type", JStr "call")]]
           (JArr [JObj [("type", JStr "call")]]));
    try reflexivity.
  eexists. cbn. repeat split. left. reflexivity.
Defined.

(** X3: a client other than Erigon that answers [trace_transaction] with an
    empty result (null, an empty list, ...) has [get_call_tree] fall back:
    the call tracer is asked next and its tree is returned. *)
Theorem call_tree_falls_back_on_empty_trace
    (T : EvmTrace) (w : world) (nd : node) (txn_hash : string)
    (v calls : json) (evm_call : EvmCallTreeNode) (tree : CallTreeNode) :
  connected_to w nd ->
  Py.contains "erigon" (Py.lower (node_client_version nd)) = false ->
  answer nd (parity_request txn_hash) = inr v ->
  truthy v = false ->
  answer nd (call_tracer_request txn_hash) = inr calls ->
  get_calltree_from_geth_call_trace calls = inr evm_call ->
  _create_call_tree_node evm_call (Some txn_hash) = inr tree ->
  fst (BaseGethProvider.get_call_tree txn_hash w) = inr tree /\
  sent (snd (BaseGethProvider.get_call_tree txn_hash w))
  = (sent w ++ [parity_request txn_hash; call_tracer_request txn_hash])%list.
Proof.
  intros Hc He Ha Ht Hb Hd Hn.
  destruct (client_version_connected Hc) as (w1 & Hv & Hc1 & _ & Hs & _).
  unfold BaseGethProvider.get_call_tree. rewrite (bind_ok _ Hv), He.
  unfold try_except, BaseGethProvider._get_parity_call_tree.
  unfold parity_request in Ha.
  rewrite (bind_ok _ (make_request_ok _ _ Hc1 Ha)), Ht. cbn [negb].
  unfold raise.
  cbn [caught_by existsb exn_cls issubclass exn_class_eqb orb].
  rewrite (@geth_call_tree_ok T _ nd txn_hash calls evm_call tree
             (connected_add_sent _ Hc1) Hb Hd Hn).
  cbn. rewrite Hs, <- app_assoc. split; reflexivity.
Qed.

Lemma call_tree_falls_back_on_empty_trace_witness :
  let w := world_at node_with_empty_trace in
  fst (BaseGethProvider.get_call_tree (H := sample_trace) "0xabc" w)
  = inr (JObj [("type", JStr "CALL")], Some "0xabc") /\
  sent (snd (BaseGethProvider.get_call_tree (H := sample_trace) "0xabc" w))
  = [parity_request "0xabc"; call_tracer_request "0xabc"].
Proof.
  intro w.
  apply (@call_tree_falls_back_on_empty_trace sample_trace w node_with_empty_trace
           "0xabc" (JArr []) (JObj [("type", JStr "CALL")])
           (JObj [("type", JStr "CALL")]));
    try reflexivity.
  eexists. cbn. repeat split. left. reflexivity.
Defined.

(** X4: an exception of the parity request that is none of [ValueError],
    [APINotImplementedError] and [ProviderError] is not taken for a missing
    endpoint: [get_call_tree] raises it as it came and does not ask the call
    tracer. *)
Theorem call_tree_other_errors_propagate
    (T : EvmTrace) (w : world) (nd : node) (txn_hash : string) (err : exn) :
  connected_to w nd ->
  answer nd (parity_request txn_hash) = inl err ->
  caught_by [ValueError; APINotImplementedError; ProviderError] err = false ->
  fst (BaseGethProvider.get_call_tree txn_hash w) = inl err /\
  sent (snd (BaseGethProvider.get_call_tree txn_hash w))
  = (sent w ++ [parity_request txn_hash])%list.
Proof.
  intros Hc Ha Hk.
  destruct (client_version_connected Hc) as (w1 & Hv & Hc1 & _ & Hs & _).
  assert (Hp : issubclass (exn_cls err) ProviderError = false).
  { unfold caught_by in Hk. cbn [existsb] in Hk.
    destruct (issubclass (exn_cls err) ProviderError); [| reflexivity].
    rewrite !orb_true_r in Hk. discriminate Hk. }
  assert (Hm : BaseGethProvider._make_request "trace_transaction" [JStr txn_hash] w1
               = (inl err, add_sent (parity_request txn_hash) w1)).
  { unfold BaseGethProvider._make_request, try_except.
    rewrite (super_make_request_connected _ _ Hc1).
    unfold parity_request in Ha. rewrite Ha.
    unfold caught_by. cbn [existsb]. rewrite Hp. reflexivity. }
  assert (Hpar : BaseGethProvider._get_parity_call_tree txn_hash w1
                 = (inl err, add_sent (parity_request txn_hash) w1)).
  { unfold BaseGethProvider._get_parity_call_tree, bind. rewrite Hm. reflexivity. }
  unfold BaseGethProvider.get_call_tree. rewrite (bind_ok _ Hv).
  destruct (Py.contains "erigon" _).
  - rewrite Hpar. cbn. rewrite Hs. split; reflexivity.
  - unfold try_except. rewrite Hpar, Hk. cbn. rewrite Hs. split; reflexivity.
Qed.

Lemma call_tree_other_errors_propagate_witness :
  let w := world_at unreachable_node in
  fst (BaseGethProvider.get_call_tree (H := sample_trace) "0xabc" w)
  = inl (Raise HTTPError "502 Server Error: Bad Gateway") /\
  sent (snd (BaseGethProvider.get_call_tree (H := sample_trace) "0xabc" w))
  = [parity_request "0xabc"].
Proof.
  intro w.
  apply (@call_tree_other_errors_propagate sample_trace w unreachable_node "0xabc");
    try reflexivity.
  eexists. cbn. repeat split. left. reflexivity.
Defined.

(** ** Snapshot ids given as bytes or text *)

Lemma nibble_cases (d : Z) :
  0 <= d < 16 ->
  d = 0 \/ d = 1 \/ d = 2 \/ d = 3 \/ d = 4 \/ d = 5 \/ d = 6 \/ d = 7 \/
  d = 8 \/ d = 9 \/ d = 10 \/ d = 11 \/ d = 12 \/ d = 13 \/ d = 14 \/ d = 15.
Proof. lia. Qed.

Ltac each_nibble H :=
  destruct (nibble_cases H)
    as [-> | [-> | [-> | [-> | [-> | [-> | [-> | [-> |
        [-> | [-> | [-> | [-> | [-> | [-> | [-> | ->]]]]]]]]]]]]]]].

(** Round trip of one digit. *)
Lemma hex_digit_nibble (d : Z) : 0 <= d < 16 -> Py.hex_digit (Py.nibble d) = Some d.
Proof. intros H. each_nibble H; reflexivity. Qed.

Lemma nibble_not_x (d : Z) :
  0 <= d < 16 ->
  Ascii.eqb "x" (Py.nibble d) = false /\ Ascii.eqb "X" (Py.nibble d) = false.
Proof. intros H. each_nibble H; split; reflexivity. Qed.

Lemma nibble_not_underscore (d : Z) (rest : string) :
  0 <= d < 16 ->
  match String (Py.nibble d) rest with
  | String "_" t => t
  | t => t
  end = String (Py.nibble d) rest.
Proof. intros H. each_nibble H; reflexivity. Qed.

Lemma byte_nibbles (x : Z) :
  0 <= x < 256 -> 0 <= x / 16 < 16 /\ 0 <= x mod 16 < 16.
Proof.
  intros H. split.
  - split; [apply Z.div_pos; lia | apply Z.div_lt_upper_bound; lia].
  - apply Z.mod_pos_bound. lia.
Qed.

(** The digits of [bytes.hex()] read back as the big-endian number. *)
Lemma hex_body_bytes_hex (b : list Z) :
  Forall (fun x => 0 <= x < 256) b ->
  forall prev acc,
    b <> [] \/ prev = true ->
    Py.hex_body prev acc (Py.bytes_hex b)
    = Some (fold_left (fun a x => 256 * a + x) b acc).
Proof.
  induction 1 as [| x b Hx Hb IH]; intros prev acc Hne.
  - destruct Hne as [Hne | ->]; [congruence | reflexivity].
  - destruct (byte_nibbles Hx) as [Hh Hl].
    cbn [Py.bytes_hex Py.hex_body fold_left].
    rewrite (hex_digit_nibble Hh), (hex_digit_nibble Hl).
    rewrite IH by (right; reflexivity).
    f_equal. f_equal. pose proof (Z.div_mod x 16). lia.
Qed.

(** [int(s, 16)] of "0x" followed by a digit and more: the prefix is
    skipped and the rest is read as digits. *)
Lemma int16_0x_digit (c : ascii) (t : string) :
  (exists d, Py.hex_digit c = Some d) ->
  Py.int16 ("0x" ++ String c t) = Py.hex_body false 0 (String c t).
Proof.
  intros [d H]. unfold Py.int16.
  change ("0x" ++ String c t) with (String "0" (String "x" (String c t))).
  change (Py.lstrip (String "0" (String "x" (String c t))))
    with (String "0" (String "x" (String c t))).
  cbv beta iota zeta.
  change (Py.startswith "0x" (String "0" (String "x" (String c t)))) with true.
  cbv beta iota zeta.
  change (Py.drop 2 (String "0" (String "x" (String c t)))) with (String c t).
  destruct c as [[] [] [] [] [] [] [] []]; vm_compute in H; try discriminate H; clear H;
    cbv beta iota zeta delta [orb];
    match goal with
    | |- context [Py.hex_body false 0 ?s] => destruct (Py.hex_body false 0 s)
    end; reflexivity.
Qed.

Lemma add_0x_prefix_bytes_hex (b : list Z) :
  Forall (fun x => 0 <= x < 256) b ->
  add_0x_prefix (Py.bytes_hex b) = "0x" ++ Py.bytes_hex b.
Proof.
  intros Hb. unfold add_0x_prefix.
  destruct Hb as [| x b Hx _]; [reflexivity |].
  destruct (byte_nibbles Hx) as [_ Hl].
  destruct (nibble_not_x Hl) as [H1 H2].
  cbn [Py.bytes_hex Py.startswith]. rewrite H1, H2.
  rewrite !andb_false_r. reflexivity.
Qed.

(** [int(b.hex(), 16)] is the big-endian number of a non-empty [b]. *)
Lemma int16_bytes_hex (b : list Z) :
  Forall (fun x => 0 <= x < 256) b -> b <> [] ->
  Py.int16 (add_0x_prefix (Py.bytes_hex b)) = Some (be_value b).
Proof.
  intros Hb Hne. rewrite (add_0x_prefix_bytes_hex Hb).
  pose proof (@hex_body_bytes_hex b Hb false 0 (or_introl Hne)) as Hv.
  destruct Hb as [| x b Hx _]; [congruence |].
  destruct (byte_nibbles Hx) as [Hh _].
  cbn [Py.bytes_hex] in *.
  rewrite int16_0x_digit by (eexists; apply (hex_digit_nibble Hh)).
  exact Hv.
Qed.

Ltac eval_hex_digit :=
  match goal with
  | |- context [Py.hex_digit ?c] =>
      let v := eval vm_compute in (Py.hex_digit c) in
      change (Py.hex_digit c) with v
  end.

(** Reading the digits that the standard library prints. *)
Lemma hex_body_uint (d : Hexadecimal.uint) :
  forall acc,
    Py.hex_body true acc (HexadecimalString.NilEmpty.string_of_uint d)
    = Some (uint_value acc d).
Proof.
  induction d; intros acc;
    cbn [HexadecimalString.NilEmpty.string_of_uint uint_value Py.hex_body];
    [reflexivity | ..]; eval_hex_digit; cbv iota; apply IHd.
Qed.

Lemma hex_body_uint_first (d : Hexadecimal.uint) (acc : Z) :
  d <> Hexadecimal.Nil ->
  Py.hex_body false acc (HexadecimalString.NilEmpty.string_of_uint d)
  = Some (uint_value acc d).
Proof.
  intros Hd. destruct d; [congruence | ..];
    cbn [HexadecimalString.NilEmpty.string_of_uint uint_value Py.hex_body];
    eval_hex_digit; cbv iota; apply hex_body_uint.
Qed.

Lemma uint_value_of_lu (d : Hexadecimal.uint) :
  forall acc,
    uint_value acc d
    = Z.of_N (HexadecimalPos.Unsigned.of_lu (Hexadecimal.rev d))
      + acc * 16 ^ Z.of_N (HexadecimalPos.Unsigned.usize d).
Proof.
  induction d; intros acc; cbn [uint_value];
    [cbn; lia | ..];
    rewrite IHd;
    match goal with
    | |- context [Hexadecimal.rev (?D d)] =>
        change (Hexadecimal.rev (D d))
          with (Hexadecimal.revapp d (D Hexadecimal.Nil));
        rewrite (HexadecimalPos.Unsigned.of_lu_revapp d (D Hexadecimal.Nil))
    end;
    cbn [HexadecimalPos.Unsigned.of_lu HexadecimalPos.Unsigned.usize];
    rewrite N2Z.inj_add, N2Z.inj_mul, N2Z.inj_pow, N2Z.inj_succ, Z.pow_succ_r
      by apply N2Z.is_nonneg;
    cbn [Z.of_N N.add N.mul Pos.mul Pos.add]; ring.
Qed.

Lemma uint_value_to_hex (m : N) : uint_value 0 (N.to_hex_uint m) = Z.of_N m.
Proof.
  rewrite uint_value_of_lu, <- HexadecimalPos.Unsigned.of_uint_alt.
  change (Pos.of_hex_uint (N.to_hex_uint m)) with (N.of_hex_uint (N.to_hex_uint m)).
  rewrite HexadecimalN.Unsigned.of_to. lia.
Qed.

Lemma to_hex_uint_not_nil (m : N) : N.to_hex_uint m <> Hexadecimal.Nil.
Proof.
  destruct m as [| p]; [discriminate |].
  apply HexadecimalPos.Unsigned.to_uint_nonnil.
Qed.

(** The digits [hex] prints begin with a digit. *)
Lemma string_of_uint_head (d : Hexadecimal.uint) :
  d <> Hexadecimal.Nil ->
  exists c t k,
    HexadecimalString.NilZero.string_of_uint d = String c t /\
    HexadecimalString.NilEmpty.string_of_uint d = String c t /\
    Py.hex_digit c = Some k.
Proof.
  intros Hd. destruct d; [congruence | ..];
    do 3 eexists; (split; [reflexivity | split; [reflexivity |]]);
    vm_compute; reflexivity.
Qed.

(** [int(hex(n), 16) == n] for a block number [n]. *)
Lemma int16_to_hex (n : Z) : 0 <= n -> Py.int16 (to_hex n) = Some n.
Proof.
  intros Hn. unfold to_hex, Py.hex.
  destruct (Z.ltb_spec n 0) as [Hlt | _]; [lia |].
  destruct (string_of_uint_head (to_hex_uint_not_nil (Z.abs_N n)))
    as (c & t & k & E0 & E1 & Hk).
  rewrite E0, int16_0x_digit by (exists k; exact Hk).
  rewrite <- E1, hex_body_uint_first by apply to_hex_uint_not_nil.
  rewrite uint_value_to_hex, N2Z.inj_abs_N. f_equal. lia.
Qed.

(** [hex(n)] of a block number already has its prefix. *)
Lemma add_0x_prefix_to_hex (n : Z) : 0 <= n -> add_0x_prefix (to_hex n) = to_hex n.
Proof.
  intros Hn. unfold to_hex, Py.hex, add_0x_prefix.
  destruct (Z.ltb_spec n 0) as [Hlt | _]; [lia |]. reflexivity.
Qed.

(** X5: a snapshot id given as bytes is read as a big-endian number.
    [revert] of a non-empty byte string returns early when that number is
    the head, and otherwise sends [debug_setHead] with "0x" followed by the
    bytes in hex, zero padding kept; [revert(b"")] raises [ValueError]
    before the node is asked anything. *)
Theorem revert_bytes_id (w : world) (nd : node) (b : list Z) :
  connected_to w nd ->
  Forall (fun x => 0 <= x < 256) b ->
  (b = [] ->
     GethDev.revert (SnapBytes b) w
     = (inl (Raise ValueError "invalid literal for int() with base 16: '0x'"), w)) /\
  (b <> [] -> GethDev.eq_number (be_value b) (node_head nd) = true ->
     GethDev.revert (SnapBytes b) w = (inr tt, w)) /\
  (b <> [] -> GethDev.eq_number (be_value b) (node_head nd) = false ->
     snd (GethDev.revert (SnapBytes b) w)
     = add_sent (set_head_request ("0x" ++ Py.bytes_hex b)) w).
Proof.
  intros Hc Hb. split; [intros ->; reflexivity |].
  assert (Hrun : b <> [] ->
            GethDev.revert (SnapBytes b) w
            = (if GethDev.eq_number (be_value b) (node_head nd) then ret tt
               else bind (BaseGethProvider._make_request "debug_setHead"
                            [JStr ("0x" ++ Py.bytes_hex b)])
                         (fun _ => ret tt)) w).
  { intros Hne. unfold GethDev.revert, GethDev.int16_or_raise.
    rewrite (int16_bytes_hex Hb Hne), (add_0x_prefix_bytes_hex Hb).
    unfold bind at 1 2. unfold ret at 1 2. cbn [fst snd].
    rewrite (bind_ok _ (latest_number_connected Hc)).
    rewrite future_guard_never_fires. reflexivity. }
  split; intros Hne He; rewrite (Hrun Hne), He; [reflexivity |].
  unfold bind.
  destruct (make_request_sent "debug_setHead" [JStr ("0x" ++ Py.bytes_hex b)] Hc)
    as (r & ->).
  destruct r; reflexivity.
Qed.

Lemma revert_bytes_id_witness :
  let w := world_at (sample_node "Geth/v1.10.26" (Some 300) (fun _ => inr JNull)) in
  ([0; 5] = [] ->
     GethDev.revert (SnapBytes [0; 5]) w
     = (inl (Raise ValueError "invalid literal for int() with base 16: '0x'"), w)) /\
  ([0; 5] <> [] -> GethDev.eq_number (be_value [0; 5]) (Some 300) = true ->
     GethDev.revert (SnapBytes [0; 5]) w = (inr tt, w)) /\
  ([0; 5] <> [] -> GethDev.eq_number (be_value [0; 5]) (Some 300) = false ->
     snd (GethDev.revert (SnapBytes [0; 5]) w)
     = add_sent (set_head_request "0x0005") w).
Proof.
  intro w.
  apply (@revert_bytes_id w
           (sample_node "Geth/v1.10.26" (Some 300) (fun _ => inr JNull)) [0; 5]).
  - eexists. cbn. repeat split. left. reflexivity.
  - repeat constructor; lia.
Defined.

(** X6: for a block number [n], the id given as the text [hex(n)] and the
    id given as the integer [n] make [revert] do the same thing. *)
Theorem revert_hex_text_id_is_int_id (w : world) (n : Z) :
  0 <= n ->
  GethDev.revert (SnapStr (to_hex n)) w = GethDev.revert (SnapInt n) w.
Proof.
  intros Hn. unfold GethDev.revert, GethDev.int16_or_raise.
  rewrite (int16_to_hex Hn), (add_0x_prefix_to_hex Hn). reflexivity.
Qed.

Lemma revert_hex_text_id_is_int_id_witness :
  let w := world_at (sample_node "Geth/v1.10.26" (Some 300) (fun _ => inr JNull)) in
  GethDev.revert (SnapStr (to_hex 255)) w = GethDev.revert (SnapInt 255) w.
Proof.
  intro w. apply (@revert_hex_text_id_is_int_id w 255). lia.
Defined.

Example revert_forms_of_255 :
  let w := world_at (sample_node "Geth/v1.10.26" (Some 300) (fun _ => inr JNull)) in
  map (fun id => sent (snd (GethDev.revert id w)))
      [SnapInt 255; SnapStr "0xff"; SnapStr "ff"; SnapBytes [255]; SnapBytes [0; 255]]
  = [[set_head_request "0xff"]; [set_head_request "0xff"]; [set_head_request "0xff"];
     [set_head_request "0xff"]; [set_head_request "0x00ff"]].
Proof. vm_compute. reflexivity. Qed.

(** ** The connection checks *)

Lemma web3_run (w : world) (h : web3) :
  _web3 (self w) = Some h -> BaseGethProvider.web3_ w = (inr h, w).
Proof.
  intros Hw. unfold BaseGethProvider.web3_, bind, get_self, ret. rewrite Hw. reflexivity.
Qed.

Lemma remote_node_run (w : world) (h : web3) (nd : node) :
  _web3 (self w) = Some h -> remote h = Some nd ->
  BaseGethProvider.remote_node w = (inr nd, w).
Proof.
  intros Hw Hr. unfold BaseGethProvider.remote_node.
  rewrite (bind_ok _ (web3_run w Hw)), Hr. reflexivity.
Qed.

Lemma set_gas_price_strategy_run (w : world) (h : web3) (g : string) :
  _web3 (self w) = Some h ->
  BaseGethProvider.set_gas_price_strategy g w
  = (inr tt,
     set_self (BaseGethProvider.with_web3
                 (Some {| remote := remote h; middleware_onion := middleware_onion h;
                          gas_price_strategy := Some g |}) (self w)) w).
Proof.
  intros Hw. unfold BaseGethProvider.set_gas_price_strategy.
  rewrite (bind_ok _ (web3_run w Hw)). reflexivity.
Qed.

Lemma inject_run (w : world) (h : web3) (m : string) :
  _web3 (self w) = Some h ->
  BaseGethProvider.inject m w
  = if existsb (String.eqb m) (middleware_onion h)
    then (inl (Raise ValueError "You can't add the same un-named instance twice"), w)
    else (inr tt,
          set_self (BaseGethProvider.with_web3
                      (Some {| remote := remote h;
                               middleware_onion := m :: middleware_onion h;
                               gas_price_strategy := gas_price_strategy h |})
                      (self w)) w).
Proof.
  intros Hw. unfold BaseGethProvider.inject.
  rewrite (bind_ok _ (web3_run w Hw)).
  destruct (existsb _ _); reflexivity.
Qed.

Lemma verify_chain_id_run (w : world) (c : Z) :
  BaseGethProvider.verify_chain_id c w
  = (match network_chain_id (self w) with
     | Some expected =>
         if expected =? c then inr tt
         else inl (Raise NetworkMismatchError "Provider connected to the wrong chain.")
     | None => inr tt
     end, w).
Proof.
  unfold BaseGethProvider.verify_chain_id, bind, get_self, ret, raise.
  destruct (network_chain_id (self w)) as [e |]; [destruct (e =? c) |]; reflexivity.
Qed.

(** The checks of lines 283-315 run on a node that gives its chain id. *)
Lemma complete_connect_checks_run (w : world) (h : web3) (nd : node) (c : Z) :
  _web3 (self w) = Some h -> remote h = Some nd ->
  node_chain_id nd = ChainId c ->
  BaseGethProvider._complete_connect_checks w
  = (match network_chain_id (self w) with
     | Some expected =>
         if expected =? c then inr tt
         else inl (Raise NetworkMismatchError "Provider connected to the wrong chain.")
     | None => inr tt
     end,
     set_self
       (BaseGethProvider.with_web3
          (Some {| remote := Some nd;
                   middleware_onion :=
                     if likely_poa nd && negb (has_poa_middleware h)
                     then geth_poa_middleware :: middleware_onion h
                     else middleware_onion h;
                   gas_price_strategy := Some rpc_gas_price_strategy |})
          (self w)) w).
Proof.
  intros Hw Hr Hc.
  set (h1 := {| remote := remote h; middleware_onion := middleware_onion h;
                gas_price_strategy := Some rpc_gas_price_strategy |}).
  set (w1 := set_self (BaseGethProvider.with_web3 (Some h1) (self w)) w).
  assert (Hw1 : _web3 (self w1) = Some h1) by reflexivity.
  assert (Hr1 : remote h1 = Some nd) by exact Hr.
  unfold BaseGethProvider._complete_connect_checks.
  rewrite (bind_ok _ (@set_gas_price_strategy_run w h rpc_gas_price_strategy Hw)).
  fold h1. fold w1.
  rewrite (bind_ok _ (@remote_node_run w1 h1 nd Hw1 Hr1)), Hc.
  unfold ret at 1. unfold bind at 1.
  fold (likely_poa nd). unfold has_poa_middleware.
  change (middleware_onion h) with (middleware_onion h1).
  destruct (likely_poa nd); cbn [andb].
  - unfold try_except, bind. rewrite (@inject_run w1 h1 geth_poa_middleware Hw1).
    destruct (existsb (String.eqb geth_poa_middleware) (middleware_onion h1)); cbn [negb].
    + cbn [caught_by existsb exn_cls issubclass exn_class_eqb orb exn_msg].
      change (Py.contains "You can't add the same un-named instance twice"
                "You can't add the same un-named instance twice") with true.
      cbv iota. unfold ret at 1.
      rewrite verify_chain_id_run. subst w1 h1. cbn. rewrite Hr. reflexivity.
    + rewrite verify_chain_id_run. subst w1 h1. cbn. rewrite Hr. reflexivity.
  - unfold ret at 1. unfold bind. rewrite verify_chain_id_run.
    subst w1 h1. cbn. rewrite Hr. reflexivity.
Qed.

(** X7: installing the PoA shim is idempotent.  On a node whose chain id
    query succeeds, [_complete_connect]'s checks leave the middleware onion
    with [geth_poa_middleware] put in front when the chain looks like
    proof-of-authority and the middleware was not there, and unchanged
    otherwise: when it already was there, the [ValueError] of the second
    injection is swallowed.  Either way the checks go on, and their outcome
    is that of the chain id verification. *)
Theorem poa_shim_installed_once (w : world) (h : web3) (nd : node) (c : Z) :
  _web3 (self w) = Some h -> remote h = Some nd ->
  node_chain_id nd = ChainId c ->
  let w' := snd (BaseGethProvider._complete_connect_checks w) in
  _web3 (self w')
  = Some {| remote := Some nd;
            middleware_onion :=
              if likely_poa nd && negb (has_poa_middleware h)
              then geth_poa_middleware :: middleware_onion h
              else middleware_onion h;
            gas_price_strategy := Some rpc_gas_price_strategy |} /\
  fst (BaseGethProvider._complete_connect_checks w)
  = fst (BaseGethProvider.verify_chain_id c w).
Proof.
  intros Hw Hr Hc w'. subst w'.
  rewrite (complete_connect_checks_run w Hw Hr Hc), verify_chain_id_run.
  split; reflexivity.
Qed.

Lemma poa_shim_installed_once_witness :
  let w := world_at poa_node in
  let w' := snd (BaseGethProvider._complete_connect_checks
                   (snd (BaseGethProvider._complete_connect_checks w))) in
  _web3 (self w')
  = Some {| remote := Some poa_node;
            middleware_onion := [geth_poa_middleware];
            gas_price_strategy := Some rpc_gas_price_strategy |} /\
  fst (BaseGethProvider._complete_connect_checks
         (snd (BaseGethProvider._complete_connect_checks w))) = inr tt.
Proof.
  intro w.
  apply (@poa_shim_installed_once
           (snd (BaseGethProvider._complete_connect_checks w))
           {| remote := Some poa_node; middleware_onion := [geth_poa_middleware];
              gas_price_strategy := Some rpc_gas_price_strategy |}
           poa_node 1337); reflexivity.
Defined.


(** X8: a [ValueError] of the chain id query never leaves
    [_complete_connect]'s checks as such.  When its first argument is a dict
    with a message, a [ProviderError] with that message is raised; when it
    is not a dict, a [ProviderError] saying "Error getting chain id.".  The
    PoA probe and the chain id verification are not reached: besides the gas
    price strategy, the handle is as it was. *)
Theorem chain_id_error_becomes_provider_error
    (w : world) (h : web3) (nd : node) (msg : string) :
  _web3 (self w) = Some h -> remote h = Some nd ->
  chain_id_error_message (node_chain_id nd) = Some msg ->
  BaseGethProvider._complete_connect_checks w
  = (inl (Raise ProviderError msg),
     set_self
       (BaseGethProvider.with_web3
          (Some {| remote := remote h; middleware_onion := middleware_onion h;
                   gas_price_strategy := Some rpc_gas_price_strategy |})
          (self w)) w).
Proof.
  intros Hw Hr Hm.
  set (h1 := {| remote := remote h; middleware_onion := middleware_onion h;
                gas_price_strategy := Some rpc_gas_price_strategy |}).
  set (w1 := set_self (BaseGethProvider.with_web3 (Some h1) (self w)) w).
  assert (Hw1 : _web3 (self w1) = Some h1) by reflexivity.
  assert (Hr1 : remote h1 = Some nd) by exact Hr.
  unfold BaseGethProvider._complete_connect_checks.
  rewrite (bind_ok _ (@set_gas_price_strategy_run w h rpc_gas_price_strategy Hw)).
  fold h1. fold w1.
  rewrite (bind_ok _ (@remote_node_run w1 h1 nd Hw1 Hr1)).
  unfold chain_id_error_message in Hm.
  destruct (node_chain_id nd) as [c | [m |] |]; try discriminate Hm;
    injection Hm as <-; reflexivity.
Qed.

Lemma chain_id_error_becomes_provider_error_witness :
  fst (BaseGethProvider._complete_connect_checks (world_at syncing_node))
  = inl (Raise ProviderError "the node is syncing").
Proof.
  rewrite (@chain_id_error_becomes_provider_error (world_at syncing_node)
             {| remote := Some syncing_node; middleware_onion := [];
                gas_price_strategy := None |}
             syncing_node "the node is syncing"); reflexivity.
Defined.

(** ** Connecting with nothing listening *)

(** X9: [Geth.connect] with no node answering at the uri raises
    [ProviderError] naming the uri.  Nothing is sent or logged, the tuning
    values are untouched and no client version is cached. *)
Theorem geth_connect_without_node (w : world) :
  listening w = None ->
  let w' := snd (Geth.connect w) in
  fst (Geth.connect w)
  = inl (Raise ProviderError ("No node found on '" ++ _clean_uri w ++ "'.")) /\
  sent w' = sent w /\ logged w' = logged w /\
  concurrency (self w') = concurrency (self w) /\
  block_page_size (self w') = block_page_size (self w) /\
  _client_version (self w') = None.
Proof.
  intros Hl w'. subst w'.
  unfold Geth.connect, BaseGethProvider._set_web3, _create_web3,
    BaseGethProvider.is_connected, bind, get_self, put_self, ret, raise.
  cbn. rewrite Hl. cbn. repeat split.
Qed.

Lemma geth_connect_without_node_witness :
  fst (Geth.connect world_alone)
  = inl (Raise ProviderError "No node found on 'http://localhost:8545'.").
Proof.
  pose proof (@geth_connect_without_node world_alone eq_refl) as H.
  cbv zeta in H. exact (proj1 H).
Defined.

(** ** The supervisor's life cycle *)

(** X10: without a geth executable, [from_uri] on a local host fails with
    [GethNotInstalledError] before touching the machine: no directory is
    made or removed.  The error is a [ConnectionError] for a caller that
    catches that class. *)
Theorem from_uri_without_geth
    (G : GethTools) (u : parsed_uri) (data_folder : string)
    (kwargs : from_uri_kwargs) (o : os) :
  GethDevProcess.is_local (host u) = true ->
  geth_on_path o = false ->
  exists e,
    GethDevProcess.from_uri u data_folder kwargs o = (inl e, o) /\
    exn_cls e = GethNotInstalledError /\
    caught_by [ConnectionError] e = true.
Proof.
  intros Hl Hg. unfold GethDevProcess.from_uri, GethDevProcess.__init__.
  rewrite Hl. cbn [negb]. cbv beta. rewrite Hg. cbn [negb]. unfold raise.
  eexists. split; [reflexivity |]. split; reflexivity.
Qed.

Lemma from_uri_without_geth_witness :
  exists e,
    GethDevProcess.from_uri (H := sample_tools) (URL (Some "127.0.0.1") None) "/data"
      (Kwargs None None None) machine_without_geth = (inl e, machine_without_geth) /\
    exn_cls e = GethNotInstalledError /\
    caught_by [ConnectionError] e = true.
Proof.
  apply (@from_uri_without_geth sample_tools (URL (Some "127.0.0.1") None));
    reflexivity.
Defined.

Lemma existsb_eqb_In (p : string) (l : list string) :
  existsb (String.eqb p) l = true <-> In p l.
Proof.
  rewrite existsb_exists. split.
  - intros (x & Hx & E). apply String.eqb_eq in E. subst. exact Hx.
  - intros H. exists p. split; [exact H | apply String.eqb_refl].
Qed.

Lemma under_self (d : string) : GethDevProcess.under d d = true.
Proof. unfold GethDevProcess.under. rewrite String.eqb_refl. reflexivity. Qed.

(** X11: [_clean] removes the data directory with everything under it and
    nothing else, and cleaning twice is cleaning once. *)
Theorem clean_removes_data_dir_only (data_dir : string) (o : os) :
  parent_exists data_dir o ->
  let o' := snd (GethDevProcess._clean data_dir o) in
  fst (GethDevProcess._clean data_dir o) = inr tt /\
  (forall q, In q (directories o') <->
             In q (directories o) /\ GethDevProcess.under data_dir q = false) /\
  GethDevProcess._clean data_dir o' = (inr tt, o').
Proof.
  intros Hp o'. subst o'.
  unfold GethDevProcess._clean, GethDevProcess.exists_, GethDevProcess.rmtree, bind, ret.
  destruct (existsb (String.eqb data_dir) (directories o)) eqn:Ee; cbn [fst snd directories].
  - split; [reflexivity |]. split.
    + intros q. rewrite filter_In, negb_true_iff. reflexivity.
    + assert (Hn : existsb (String.eqb data_dir)
                     (filter (fun d => negb (GethDevProcess.under data_dir d))
                             (directories o)) = false).
      { apply not_true_iff_false. intros H. apply existsb_eqb_In in H.
        apply filter_In in H. destruct H as [_ H].
        rewrite under_self in H. discriminate H. }
      rewrite Hn. reflexivity.
  - split; [reflexivity |]. split.
    + intros q. split; [| tauto].
      intros Hq. split; [exact Hq |].
      destruct (GethDevProcess.under data_dir q) eqn:Eu; [| reflexivity].
      apply (Hp q Hq) in Eu. apply existsb_eqb_In in Eu. congruence.
    + rewrite Ee. reflexivity.
Qed.

Lemma clean_removes_data_dir_only_witness :
  let o' := snd (GethDevProcess._clean "/data" machine_with_stale_data) in
  fst (GethDevProcess._clean "/data" machine_with_stale_data) = inr tt /\
  (forall q, In q (directories o') <->
             In q (directories machine_with_stale_data) /\
             GethDevProcess.under "/data" q = false) /\
  GethDevProcess._clean "/data" o' = (inr tt, o').
Proof.
  apply (@clean_removes_data_dir_only "/data" machine_with_stale_data).
  intros q _ _. cbn. auto.
Defined.

Example clean_stale_data :
  directories (snd (GethDevProcess._clean "/data" machine_with_stale_data))
  = ["/database"; "/home"].
Proof. vm_compute. reflexivity. Qed.

(** X12: [start] spawns at most one child.  On a supervisor that is not
    running it starts one process with the prepared arguments and sets the
    flag; on a running one it does nothing; so a second [start] right after
    the first changes nothing. *)
Theorem start_spawns_once (p : GethDevProcess.t) (o : os) :
  exists p1 o1,
    GethDevProcess.start p o = (inr p1, o1) /\
    GethDevProcess.is_running p1 = true /\
    (GethDevProcess.is_running p = false ->
       children o1 = (children o ++ [GethDevProcess.geth_kwargs_ p])%list /\
       GethDevProcess.proc p1 = Some (GethDevProcess.geth_kwargs_ p)) /\
    (GethDevProcess.is_running p = true -> p1 = p /\ o1 = o) /\
    GethDevProcess.start p1 o1 = (inr p1, o1).
Proof.
  unfold GethDevProcess.start.
  destruct (GethDevProcess.is_running p) eqn:Er.
  - exists p, o. unfold ret. rewrite Er.
    repeat split; try reflexivity; discriminate.
  - do 2 eexists. split; [reflexivity |]. cbn.
    repeat split; try reflexivity; discriminate.
Qed.

(** X13: [connect] registers the exit handler only once the RPC endpoint
    has answered.  When [wait_for_rpc] raises, [connect] raises the same
    error with the child it started still among the running processes and
    no handler registered; when it returns, the child runs and the handler
    is registered. *)
Theorem connect_registers_exit_hook_last
    (p : GethDevProcess.t) (o : os) (ipc_path : string) (e : exn) :
  GethDevProcess.is_running p = false ->
  (let '(r, o') := GethDevProcess.connect ipc_path (inl e) p o in
   r = inl e /\
   children o' = (children o ++ [GethDevProcess.geth_kwargs_ p])%list /\
   atexit o' = atexit o) /\
  (let '(r, o') := GethDevProcess.connect ipc_path (inr tt) p o in
   (exists p1, r = inr p1 /\ GethDevProcess.is_running p1 = true) /\
   children o' = (children o ++ [GethDevProcess.geth_kwargs_ p])%list /\
   atexit o' = (atexit o ++ ["disconnect"])%list).
Proof.
  intros Hr.
  unfold GethDevProcess.connect, GethDevProcess.start, GethDevProcess.log_info,
    GethDevProcess.atexit_register, bind, lift, ret.
  rewrite Hr. cbn [children atexit]. split.
  - repeat split.
  - split; [eexists; split; reflexivity |]. split; reflexivity.
Qed.

Lemma connect_registers_exit_hook_last_witness :
  (let '(r, o') := GethDevProcess.connect "$HOME/.ape/geth.ipc"
                     (inl (Raise ValueError "Timeout")) sample_process clean_machine in
   r = inl (Raise ValueError "Timeout") /\
   children o' = (children clean_machine
                    ++ [GethDevProcess.geth_kwargs_ sample_process])%list /\
   atexit o' = atexit clean_machine) /\
  (let '(r, o') := GethDevProcess.connect "$HOME/.ape/geth.ipc" (inr tt)
                     sample_process clean_machine in
   (exists p1, r = inr p1 /\ GethDevProcess.is_running p1 = true) /\
   children o' = (children clean_machine
                    ++ [GethDevProcess.geth_kwargs_ sample_process])%list /\
   atexit o' = (atexit clean_machine ++ ["disconnect"])%list).
Proof.
  apply (@connect_registers_exit_hook_last sample_process clean_machine
           "$HOME/.ape/geth.ipc" (Raise ValueError "Timeout")).
  reflexivity.
Defined.

Lemma clean_run_gone (data_dir : string) (o : os) :
  exists o',
    GethDevProcess._clean data_dir o = (inr tt, o') /\
    existsb (String.eqb data_dir) (directories o') = false /\
    children o' = children o /\ os_logged o' = os_logged o.
Proof.
  unfold GethDevProcess._clean, GethDevProcess.exists_, GethDevProcess.rmtree, bind, ret.
  destruct (existsb (String.eqb data_dir) (directories o)) eqn:Ee.
  - eexists. split; [reflexivity |]. cbn [directories children os_logged].
    repeat split. apply not_true_iff_false. intros H. apply existsb_eqb_In in H.
    apply filter_In in H. destruct H as [_ H].
    rewrite under_self in H. discriminate H.
  - exists o. repeat split. exact Ee.
Qed.

(** What the supervisor's [disconnect] leaves behind. *)
Lemma process_disconnect_settles (p : GethDevProcess.t) (o : os) :
  exists p1 o1,
    GethDevProcess.disconnect p o = (inr p1, o1) /\
    GethDevProcess.is_running p1 = false /\
    ~ In (GethDevProcess.data_dir p) (directories o1) /\
    children o1
    = (if GethDevProcess.is_running p then
         match GethDevProcess.proc p with
         | Some k => GethDevProcess.kill k (children o)
         | None => children o
         end
       else children o) /\
    GethDevProcess.disconnect p1 o1 = (inr p1, o1).
Proof.
  unfold GethDevProcess.disconnect.
  destruct (GethDevProcess.is_running p) eqn:Er.
  - set (pS := {| GethDevProcess.data_dir := GethDevProcess.data_dir p;
                  GethDevProcess._hostname := GethDevProcess._hostname p;
                  GethDevProcess._port := GethDevProcess._port p;
                  GethDevProcess.is_running := false;
                  GethDevProcess.geth_kwargs_ := GethDevProcess.geth_kwargs_ p;
                  GethDevProcess.proc := GethDevProcess.proc p |}).
    set (oS := {| geth_on_path := geth_on_path o; directories := directories o;
                  chains := chains o;
                  children :=
                    match GethDevProcess.proc p with
                    | Some k => GethDevProcess.kill k (children o)
                    | None => children o
                    end;
                  atexit := atexit o;
                  os_logged := (os_logged o ++ [Log INFO "Stopping 'geth' process."])%list |}).
    assert (E0 : bind (GethDevProcess.log_info "Stopping 'geth' process.")
                   (fun _ => GethDevProcess.stop p) o = (inr pS, oS)).
    { unfold bind, GethDevProcess.stop, GethDevProcess.log_info.
      rewrite Er. reflexivity. }
    rewrite (bind_ok _ E0).
    destruct (clean_run_gone (GethDevProcess.data_dir pS) oS) as (o1 & E1 & Hg & Hch & _).
    rewrite (bind_ok _ E1). unfold ret at 1.
    change (GethDevProcess.data_dir pS) with (GethDevProcess.data_dir p) in Hg.
    exists pS, o1.
    split; [reflexivity |]. split; [reflexivity |].
    split; [intros Hin; apply existsb_eqb_In in Hin; congruence |].
    split; [rewrite Hch; reflexivity |].
    change (GethDevProcess.is_running pS) with false. cbv iota.
    unfold GethDevProcess._clean, GethDevProcess.exists_, bind, ret.
    change (GethDevProcess.data_dir pS) with (GethDevProcess.data_dir p).
    rewrite Hg. reflexivity.
  - destruct (clean_run_gone (GethDevProcess.data_dir p) o) as (o1 & E1 & Hg & Hch & _).
    exists p, o1. unfold ret at 1. unfold bind at 1. unfold bind at 1.
    rewrite E1. unfold ret at 1. rewrite Er.
    split; [reflexivity |]. split; [reflexivity |].
    split; [intros Hin; apply existsb_eqb_In in Hin; congruence |].
    split; [exact Hch |].
    unfold GethDevProcess._clean, GethDevProcess.exists_, bind, ret.
    rewrite Hg. reflexivity.
Qed.

(** X14: [disconnect] is idempotent and safe on a supervisor that never
    started.  It stops the child only when the running flag is set, always
    removes the data directory, and leaves the flag cleared; a second
    [disconnect] changes nothing more. *)
Theorem disconnect_twice (p : GethDevProcess.t) (o : os) :
  exists p1 o1,
    GethDevProcess.disconnect p o = (inr p1, o1) /\
    GethDevProcess.is_running p1 = false /\
    ~ In (GethDevProcess.data_dir p) (directories o1) /\
    children o1
    = (if GethDevProcess.is_running p then
         match GethDevProcess.proc p with
         | Some k => GethDevProcess.kill k (children o)
         | None => children o
         end
       else children o) /\
    GethDevProcess.disconnect p1 o1 = (inr p1, o1).
Proof. exact (process_disconnect_settles p o). Qed.

(** ** More on the streaming reader *)

(** X15: on a response with a good status, [_stream_request] yields exactly
    the items the coroutine completes over the chunks of the response, in
    the order it completes them and each once, and then stops.  The shared
    [results] list, deleted after every chunk, neither loses nor repeats an
    item. *)
Theorem stream_request_yields_each_item_once
    (R : Ijson) (post : json -> response)
    (method : string) (params : list json) (iter_path : string) (fuel : nat) :
  raise_for_status (post (StreamRequest.payload_of method params)) = inr tt ->
  (List.length
     (StreamRequest.completed_by (items_coro iter_path)
        (iter_content (post (StreamRequest.payload_of method params)))) < fuel)%nat ->
  StreamRequest.consume post fuel (StreamRequest._stream_request method params iter_path)
  = (StreamRequest.completed_by (items_coro iter_path)
       (iter_content (post (StreamRequest.payload_of method params))),
     Some StreamRequest.StopIteration).
Proof.
  intros Hs Hf. unfold StreamRequest._stream_request.
  apply consume_created; assumption.
Qed.

Lemma stream_request_yields_each_item_once_witness :
  StreamRequest.consume (H := line_reader) post_pieces 3
    (StreamRequest._stream_request "debug_traceTransaction" [JStr "0xabc"]
       "result.structLogs.item")
  = ([[49]; [50]], Some StreamRequest.StopIteration).
Proof.
  apply (@stream_request_yields_each_item_once line_reader post_pieces
           "debug_traceTransaction" [JStr "0xabc"] "result.structLogs.item" 3).
  - reflexivity.
  - vm_compute. lia.
Defined.

(** X16: on a response with an error status the first [next] raises the
    HTTP error; nothing is yielded, no chunk is read, and the generator is
    finished. *)
Theorem stream_request_error_status
    (R : Ijson) (post : json -> response)
    (method : string) (params : list json) (iter_path : string) (e : exn) (fuel : nat) :
  raise_for_status (post (StreamRequest.payload_of method params)) = inl e ->
  StreamRequest.next post (StreamRequest._stream_request method params iter_path)
  = (StreamRequest.Finished, StreamRequest.Raised e) /\
  StreamRequest.consume post (S fuel)
    (StreamRequest._stream_request method params iter_path)
  = ([], Some (StreamRequest.Raised e)).
Proof.
  intros Hs. unfold StreamRequest._stream_request.
  cbn [StreamRequest.consume StreamRequest.next]. rewrite Hs. split; reflexivity.
Qed.

Lemma stream_request_error_status_witness :
  StreamRequest.next (H := line_reader) (fun _ => Response 404 [[49; 10]])
    (StreamRequest._stream_request "debug_traceTransaction" [] "result.item")
  = (StreamRequest.Finished,
     StreamRequest.Raised (Raise HTTPError "HTTP error status")) /\
  StreamRequest.consume (H := line_reader) (fun _ => Response 404 [[49; 10]]) 1
    (StreamRequest._stream_request "debug_traceTransaction" [] "result.item")
  = ([], Some (StreamRequest.Raised (Raise HTTPError "HTTP error status"))).
Proof.
  apply (@stream_request_error_status line_reader (fun _ => Response 404 [[49; 10]])
           "debug_traceTransaction" [] "result.item"
           (Raise HTTPError "HTTP error status") 0).
  reflexivity.
Defined.

(** ** Snapshot, then revert later *)

(** X17: the id [snapshot] returns at block [c] is the integer [c], the
    call sends nothing, and [revert] of that id on a chain whose head has
    moved to another block asks the node to set the head back to [c]. *)
Theorem revert_restores_snapshot_block
    (w w2 : world) (nd nd2 : node) (c c2 : Z) :
  connected_to w nd -> node_head nd = Some c ->
  connected_to w2 nd2 -> node_head nd2 = Some c2 -> c2 <> c ->
  GethDev.snapshot w = (inr (SnapInt c), w) /\
  snd (GethDev.revert (SnapInt c) w2) = add_sent (set_head_request (to_hex c)) w2.
Proof.
  intros Hc Hh Hc2 Hh2 Hne. split.
  - unfold GethDev.snapshot. rewrite (bind_ok _ (latest_number_connected Hc)), Hh.
    unfold ret, GethDev.or_0.
    destruct (Z.eqb_spec c 0) as [-> | _]; reflexivity.
  - destruct (@revert_int_not_head w2 nd2 c Hc2) as (r & ->); [| reflexivity].
    rewrite Hh2. cbn. apply Z.eqb_neq. congruence.
Qed.

Lemma revert_restores_snapshot_block_witness :
  let nd := sample_node "Geth/v1.10.26" (Some 7) (fun _ => inr JNull) in
  let nd2 := sample_node "Geth/v1.10.26" (Some 9) (fun _ => inr JNull) in
  GethDev.snapshot (world_at nd) = (inr (SnapInt 7), world_at nd) /\
  snd (GethDev.revert (SnapInt 7) (world_at nd2))
  = add_sent (set_head_request (to_hex 7)) (world_at nd2).
Proof.
  intros nd nd2.
  apply (@revert_restores_snapshot_block (world_at nd) (world_at nd2) nd nd2 7 9).
  - eexists. cbn. repeat split. left. reflexivity.
  - reflexivity.
  - eexists. cbn. repeat split. left. reflexivity.
  - reflexivity.
  - lia.
Defined.

(** ** What [from_uri] builds *)





(** ** The development provider's connection *)

Lemma in_world_run {A : Type} (m : M A) (s : dev_state) (r : result A) (w' : world) :
  m (provider_side s) = (r, w') ->
  GethDevSession.in_world m s
  = (r, {| provider_side := w'; machine := machine s; _process := _process s |}).
Proof. intros E. unfold GethDevSession.in_world. rewrite E. reflexivity. Qed.

Lemma on_machine_run {A : Type} (m : GethDevProcess.P A) (s : dev_state)
    (r : result A) (o' : os) :
  m (machine s) = (r, o') ->
  GethDevSession.on_machine m s
  = (r, {| provider_side := provider_side s; machine := o'; _process := _process s |}).
Proof. intros E. unfold GethDevSession.on_machine. rewrite E. reflexivity. Qed.

(** [_set_web3] with nothing listening: a handle that reaches no node. *)
Lemma set_web3_run_alone (w : world) :
  listening w = None ->
  exists ws,
    BaseGethProvider._set_web3 w = (inr tt, ws) /\
    _web3 (self ws) = Some {| remote := None; middleware_onion := [];
                              gas_price_strategy := None |} /\
    BaseGethProvider.is_connected ws = (inr false, ws) /\
    listening ws = None /\ sent ws = sent w /\ logged ws = logged w /\
    concurrency (self ws) = concurrency (self w) /\
    block_page_size (self ws) = block_page_size (self w).
Proof.
  intros Hl.
  unfold BaseGethProvider._set_web3, _create_web3, bind, get_self, put_self.
  cbn. rewrite Hl. eexists. split; [reflexivity |]. cbn. repeat split; assumption.
Qed.

(** X19: when a node already answers at the uri, [GethDev.connect] uses it:
    it runs [_complete_connect] on the fresh handle and neither builds nor
    starts a supervisor; the machine and [_process] are untouched. *)
Theorem gethdev_connect_uses_running_node
    (G : GethTools) (env : dev_env) (s : dev_state) (nd : node) :
  listening (provider_side s) = Some nd ->
  let '(r, s') := GethDevSession.connect env s in
  machine s' = machine s /\ _process s' = _process s /\
  (r, provider_side s')
  = bind BaseGethProvider._set_web3 (fun _ => BaseGethProvider._complete_connect)
      (provider_side s).
Proof.
  intros Hl.
  destruct (set_web3_run (provider_side s) Hl) as (ws & Hs & Hc & _).
  unfold GethDevSession.connect.
  rewrite (bind_ok _ (in_world_run _ s Hs)).
  set (s1 := {| provider_side := ws; machine := machine s; _process := _process s |}).
  rewrite (bind_ok _ (in_world_run BaseGethProvider.is_connected s1
                        (is_connected_run Hc))).
  subst s1. cbn [negb provider_side machine _process].
  rewrite (bind_ok _ Hs).
  unfold GethDevSession.in_world. cbn [provider_side machine _process].
  destruct (BaseGethProvider._complete_connect ws) as [r w'].
  cbn. repeat split.
Qed.

Lemma gethdev_connect_uses_running_node_witness :
  let '(r, s') := GethDevSession.connect (H := sample_tools) remote_env
                    (session_before (Some dev_node)) in
  machine s' = machine (session_before (Some dev_node)) /\
  _process s' = _process (session_before (Some dev_node)) /\
  (r, provider_side s')
  = bind BaseGethProvider._set_web3 (fun _ => BaseGethProvider._complete_connect)
      (provider_side (session_before (Some dev_node))).
Proof.
  apply (@gethdev_connect_uses_running_node sample_tools remote_env
           (session_before (Some dev_node)) dev_node).
  reflexivity.
Defined.

(** X20: with nothing answering and a uri whose host is neither
    "localhost" nor "127.0.0.1", [GethDev.connect] does not try to start a
    node: it raises the [ConnectionError] of [from_uri], and the machine and
    [_process] are as before. *)
Theorem gethdev_connect_refuses_remote_autostart
    (G : GethTools) (env : dev_env) (s : dev_state) :
  listening (provider_side s) = None ->
  GethDevProcess.is_local (host (uri_parsed env)) = false ->
  let '(r, s') := GethDevSession.connect env s in
  r = inl (Raise ConnectionError
             ("Unable to start Geth on non-local host "
                ++ GethDevProcess.show_host (host (uri_parsed env)) ++ ".")) /\
  machine s' = machine s /\ _process s' = _process s.
Proof.
  intros Hl Hh.
  destruct (set_web3_run_alone (provider_side s) Hl) as (ws & Hs & _ & Hi & _).
  unfold GethDevSession.connect.
  rewrite (bind_ok _ (in_world_run _ s Hs)).
  set (s1 := {| provider_side := ws; machine := machine s; _process := _process s |}).
  rewrite (bind_ok _ (in_world_run BaseGethProvider.is_connected s1 Hi)).
  subst s1. cbn [negb provider_side machine _process].
  unfold GethDevSession._start_geth, bind, GethDevSession.on_machine,
    GethDevProcess.from_uri.
  rewrite Hh. cbn. repeat split.
Qed.

Lemma gethdev_connect_refuses_remote_autostart_witness :
  let '(r, s') := GethDevSession.connect (H := sample_tools) remote_env
                    (session_before None) in
  r = inl (Raise ConnectionError
             "Unable to start Geth on non-local host node.example.org.") /\
  machine s' = machine (session_before None) /\
  _process s' = _process (session_before None).
Proof.
  apply (@gethdev_connect_refuses_remote_autostart sample_tools remote_env
           (session_before None)); reflexivity.
Defined.

Lemma option_eqb_refl (a : option string) :
  GethDevProcess.option_eqb String.eqb a a = true.
Proof. destruct a; [apply String.eqb_refl | reflexivity]. Qed.

Lemma geth_kwargs_eqb_refl (k : geth_kwargs) : GethDevProcess.geth_kwargs_eqb k k = true.
Proof.
  unfold GethDevProcess.geth_kwargs_eqb.
  rewrite String.eqb_refl, !option_eqb_refl, !Z.eqb_refl, Bool.eqb_reflx. reflexivity.
Qed.

Lemma geth_kwargs_eqb_other_dir (k c : geth_kwargs) :
  kw_data_dir c <> kw_data_dir k -> GethDevProcess.geth_kwargs_eqb k c = false.
Proof.
  intros Hne. unfold GethDevProcess.geth_kwargs_eqb.
  destruct (String.eqb_spec (kw_data_dir k) (kw_data_dir c)) as [E | _];
    [congruence | reflexivity].
Qed.

(** Killing the child that was started last gives back the children there
    were before, when none of them works on the same data directory. *)
Lemma kill_last (k : geth_kwargs) (l : list geth_kwargs) :
  Forall (fun c => kw_data_dir c <> kw_data_dir k) l ->
  GethDevProcess.kill k (l ++ [k]) = l.
Proof.
  induction 1 as [| c l Hc _ IH]; cbn [app GethDevProcess.kill].
  - rewrite geth_kwargs_eqb_refl. reflexivity.
  - rewrite (@geth_kwargs_eqb_other_dir k c Hc), IH. reflexivity.
Qed.

Lemma mkdir_keeps_processes (path : string) (o : os) :
  exists o',
    GethDevProcess.mkdir path o = (inr tt, o') /\
    children o' = children o /\ atexit o' = atexit o.
Proof. eexists. repeat split. Qed.

Lemma clean_keeps_processes (data_dir : string) (o : os) :
  exists o',
    GethDevProcess._clean data_dir o = (inr tt, o') /\
    children o' = children o /\ atexit o' = atexit o.
Proof.
  unfold GethDevProcess._clean, GethDevProcess.exists_, bind.
  destruct (existsb _ _); eexists; repeat split.
Qed.

(** [from_uri] on a local host with geth installed. *)
Lemma from_uri_run (G : GethTools) (u : parsed_uri) (data_folder : string)
    (kwargs : from_uri_kwargs) (o : os) :
  GethDevProcess.is_local (host u) = true ->
  geth_on_path o = true ->
  exists p o',
    GethDevProcess.from_uri u data_folder kwargs o = (inr p, o') /\
    GethDevProcess.data_dir p = data_folder /\
    GethDevProcess.is_running p = false /\
    kw_data_dir (GethDevProcess.geth_kwargs_ p) = data_folder /\
    children o' = children o /\ atexit o' = atexit o.
Proof.
  intros Hl Hg.
  unfold GethDevProcess.from_uri. rewrite Hl. cbn [negb].
  unfold GethDevProcess.__init__. rewrite Hg. cbn [negb].
  destruct (mkdir_keeps_processes data_folder o) as (o1 & E1 & C1 & K1).
  rewrite (bind_ok _ E1). cbv beta zeta.
  destruct (clean_keeps_processes data_folder o1) as (o2 & E2 & C2 & K2).
  rewrite (bind_ok _ E2).
  rewrite (bind_ok _ (initialize_chain_run _ _ o2)).
  match goal with
  | |- context [GethDevProcess.initialize_chain ?g ?k o2] =>
      set (o3 := snd (GethDevProcess.initialize_chain g k o2))
  end.
  destruct (mkdir_keeps_processes data_folder o3) as (o4 & E4 & C4 & K4).
  rewrite (bind_ok _ E4).
  destruct (mkdir_keeps_processes (data_folder ++ "/geth-logs") o4)
    as (o5 & E5 & C5 & K5).
  rewrite (bind_ok _ E5). unfold ret.
  do 2 eexists. split; [reflexivity |].
  cbn [GethDevProcess.data_dir GethDevProcess.is_running GethDevProcess.geth_kwargs_].
  split; [reflexivity |]. split; [reflexivity |]. split; [reflexivity |].
  split.
  - rewrite C5, C4. subst o3. cbn [snd GethDevProcess.initialize_chain children].
    rewrite C2, C1. reflexivity.
  - rewrite K5, K4. subst o3. cbn [snd GethDevProcess.initialize_chain atexit].
    rewrite K2, K1. reflexivity.
Qed.

(** The supervisor's [connect] when the endpoint comes up. *)
Lemma process_connect_run (p : GethDevProcess.t) (o : os) (ipc_path : string) :
  GethDevProcess.is_running p = false ->
  exists p1 o1,
    GethDevProcess.connect ipc_path (inr tt) p o = (inr p1, o1) /\
    GethDevProcess.data_dir p1 = GethDevProcess.data_dir p /\
    GethDevProcess.is_running p1 = true /\
    GethDevProcess.proc p1 = Some (GethDevProcess.geth_kwargs_ p) /\
    GethDevProcess.geth_kwargs_ p1 = GethDevProcess.geth_kwargs_ p /\
    children o1 = (children o ++ [GethDevProcess.geth_kwargs_ p])%list /\
    directories o1 = directories o.
Proof.
  intros Hr.
  unfold GethDevProcess.connect, GethDevProcess.start, GethDevProcess.log_info,
    GethDevProcess.atexit_register, bind, lift, ret.
  rewrite Hr. do 2 eexists. split; [reflexivity |]. cbn. repeat split.
Qed.

(** [self.web3.is_connected()] on a handle that had reached nothing. *)
Lemma web3_is_connected_run (s : dev_state) (h : web3) :
  _web3 (self (provider_side s)) = Some h -> remote h = None ->
  GethDevSession.web3_is_connected s
  = match listening (provider_side s) with
    | Some nd =>
        (inr true,
         {| provider_side :=
              set_self (BaseGethProvider.with_web3
                          (Some {| remote := Some nd;
                                   middleware_onion := middleware_onion h;
                                   gas_price_strategy := gas_price_strategy h |})
                          (self (provider_side s))) (provider_side s);
            machine := machine s; _process := _process s |})
    | None =>
        (inr false,
         {| provider_side := provider_side s; machine := machine s;
            _process := _process s |})
    end.
Proof.
  intros Hw Hr. unfold GethDevSession.web3_is_connected, GethDevSession.in_world.
  rewrite (bind_ok _ (web3_run (provider_side s) Hw)), Hr.
  destruct (listening (provider_side s)); reflexivity.
Qed.

(** X21: a child that was started but cannot be reached does not outlive
    the attempt.  With nothing answering before, a local uri, geth
    installed, [wait_for_rpc] returning and still no node answering,
    [GethDev.connect] stops the child and removes the data directory before
    it raises [ConnectionError]; [_process] stays unset. *)
Theorem gethdev_connect_cleans_up_unreachable_child
    (G : GethTools) (env : dev_env) (s : dev_state) :
  listening (provider_side s) = None ->
  GethDevProcess.is_local (host (uri_parsed env)) = true ->
  geth_on_path (machine s) = true ->
  rpc_wait env = inr tt ->
  spawned env = None ->
  Forall (fun c => kw_data_dir c <> dev_data_dir env) (children (machine s)) ->
  let '(r, s') := GethDevSession.connect env s in
  r = inl (Raise ConnectionError "Unable to connect to locally running geth.") /\
  children (machine s') = children (machine s) /\
  ~ In (dev_data_dir env) (directories (machine s')) /\
  _process s' = _process s.
Proof.
  intros Hl Hh Hg Hw Hsp Hch.
  destruct (set_web3_run_alone (provider_side s) Hl)
    as (ws & Hs & Hweb & Hi & Hlws & _).
  unfold GethDevSession.connect.
  rewrite (bind_ok _ (in_world_run _ s Hs)).
  set (s1 := {| provider_side := ws; machine := machine s; _process := _process s |}).
  rewrite (bind_ok _ (in_world_run BaseGethProvider.is_connected s1 Hi)).
  cbn [negb]. unfold GethDevSession._start_geth.
  match goal with
  | |- context [GethDevProcess.from_uri ?u ?d ?k] =>
      destruct (@from_uri_run G u d k (machine s) Hh Hg)
        as (p & o1 & E1 & Hd & Hr & Hkd & C1 & _)
  end.
  subst s1. cbn [provider_side machine _process].
  set (s1 := {| provider_side := ws; machine := machine s; _process := _process s |}).
  rewrite (bind_ok _ (on_machine_run _ s1 E1)).
  destruct (process_connect_run p o1 (dev_ipc_path env) Hr)
    as (p1 & o2 & E2 & Hd1 & Hr1 & Hp1 & Hk1 & C2 & _).
  rewrite Hw.
  set (s2 := {| provider_side := provider_side s1; machine := o1;
                _process := _process s1 |}).
  rewrite (bind_ok _ (on_machine_run _ s2 E2)).
  rewrite Hsp.
  unfold GethDevSession.now_listening at 1. unfold GethDevSession.in_world at 1.
  unfold bind at 1. cbn [provider_side machine _process s2 s1].
  set (s3 := {| provider_side := set_listening None ws; machine := o2;
                _process := _process s |}).
  assert (E3 : GethDevSession.web3_is_connected s3 = (inr false, s3)).
  { rewrite (@web3_is_connected_run s3 _ Hweb eq_refl). reflexivity. }
  rewrite (bind_ok _ E3). cbn [negb].
  destruct (process_disconnect_settles p1 o2) as (p2 & o3 & E4 & _ & Hgone & Hkill & _).
  unfold bind at 1. unfold bind at 1.
  rewrite (on_machine_run _ s3 E4).
  unfold GethDevSession.now_listening, GethDevSession.in_world, bind, raise.
  cbn [provider_side machine _process s3].
  split; [reflexivity |].
  split; [| split; [rewrite <- Hd, <- Hd1; exact Hgone | reflexivity]].
  rewrite Hkill, Hr1, Hp1, C2, C1.
  apply kill_last. rewrite Hkd. exact Hch.
Qed.

Lemma gethdev_connect_cleans_up_unreachable_child_witness :
  let '(r, s') := GethDevSession.connect (H := sample_tools) (local_env (inr tt) None)
                    (session_before None) in
  r = inl (Raise ConnectionError "Unable to connect to locally running geth.") /\
  children (machine s') = children (machine (session_before None)) /\
  ~ In (dev_data_dir (local_env (inr tt) None)) (directories (machine s')) /\
  _process s' = _process (session_before None).
Proof.
  apply (@gethdev_connect_cleans_up_unreachable_child sample_tools
           (local_env (inr tt) None) (session_before None));
    try reflexivity.
  constructor.
Defined.

(** X22: starting the development node.  With nothing answering before, a
    local uri, geth installed, and the node of the child answering once
    [wait_for_rpc] returns, [GethDev.connect] succeeds: [_process] holds the
    running supervisor, one child was started on the data directory, and
    the handle reaches the new node with the PoA middleware injected.
    [_complete_connect] is not run on this path: nothing is sent or logged
    by the provider, the tuning values and the cached client version are as
    before, and the chain id is not verified. *)
Theorem gethdev_connect_starts_dev_node
    (G : GethTools) (env : dev_env) (s : dev_state) (nd : node) :
  listening (provider_side s) = None ->
  GethDevProcess.is_local (host (uri_parsed env)) = true ->
  geth_on_path (machine s) = true ->
  rpc_wait env = inr tt ->
  spawned env = Some nd ->
  let '(r, s') := GethDevSession.connect env s in
  r = inr tt /\
  (exists p,
      _process s' = Some p /\
      GethDevProcess.is_running p = true /\
      GethDevProcess.data_dir p = dev_data_dir env /\
      children (machine s')
      = (children (machine s) ++ [GethDevProcess.geth_kwargs_ p])%list) /\
  _web3 (self (provider_side s'))
  = Some {| remote := Some nd; middleware_onion := [geth_poa_middleware];
            gas_price_strategy := None |} /\
  sent (provider_side s') = sent (provider_side s) /\
  logged (provider_side s') = logged (provider_side s) /\
  concurrency (self (provider_side s')) = concurrency (self (provider_side s)) /\
  block_page_size (self (provider_side s')) = block_page_size (self (provider_side s)).
Proof.
  intros Hl Hh Hg Hw Hsp.
  destruct (set_web3_run_alone (provider_side s) Hl)
    as (ws & Hs & Hweb & Hi & Hlws & Hsent & Hlog & Hcc & Hbp).
  unfold GethDevSession.connect.
  rewrite (bind_ok _ (in_world_run _ s Hs)).
  set (s1 := {| provider_side := ws; machine := machine s; _process := _process s |}).
  rewrite (bind_ok _ (in_world_run BaseGethProvider.is_connected s1 Hi)).
  cbn [negb]. unfold GethDevSession._start_geth.
  match goal with
  | |- context [GethDevProcess.from_uri ?u ?d ?k] =>
      destruct (@from_uri_run G u d k (machine s) Hh Hg)
        as (p & o1 & E1 & Hd & Hr & Hkd & C1 & _)
  end.
  subst s1. cbn [provider_side machine _process].
  set (s1 := {| provider_side := ws; machine := machine s; _process := _process s |}).
  rewrite (bind_ok _ (on_machine_run _ s1 E1)).
  destruct (process_connect_run p o1 (dev_ipc_path env) Hr)
    as (p1 & o2 & E2 & Hd1 & Hr1 & Hp1 & Hk1 & C2 & _).
  rewrite Hw.
  set (s2 := {| provider_side := provider_side s1; machine := o1;
                _process := _process s1 |}).
  rewrite (bind_ok _ (on_machine_run _ s2 E2)).
  rewrite Hsp.
  unfold GethDevSession.now_listening at 1. unfold GethDevSession.in_world at 1.
  unfold bind at 1. cbn [provider_side machine _process s2 s1].
  set (s3 := {| provider_side := set_listening (Some nd) ws; machine := o2;
                _process := _process s |}).
  rewrite (bind_ok _ (@web3_is_connected_run s3 _ Hweb eq_refl)).
  cbn [listening provider_side set_listening s3 negb].
  unfold bind at 1.
  match goal with
  | |- context [GethDevSession.in_world (BaseGethProvider.inject ?m) ?st] =>
      rewrite (@in_world_run unit (BaseGethProvider.inject m) st _ _
                 (@inject_run (provider_side st) _ m eq_refl))
  end.
  cbn [existsb middleware_onion]. unfold GethDevSession.set_process.
  cbn [provider_side machine _process self set_self BaseGethProvider.with_web3 _web3
         sent logged concurrency block_page_size set_listening remote
         gas_price_strategy middleware_onion].
  split; [reflexivity |].
  split; [exists p1; subst s3; cbn [machine]; rewrite Hk1, Hd1, Hd, C2, C1; auto |].
  split; [reflexivity |].
  auto.
Qed.

Lemma gethdev_connect_starts_dev_node_witness :
  let '(r, s') := GethDevSession.connect (H := sample_tools)
                    (local_env (inr tt) (Some dev_node)) (session_before None) in
  r = inr tt /\
  (exists p,
      _process s' = Some p /\
      GethDevProcess.is_running p = true /\
      GethDevProcess.data_dir p = dev_data_dir (local_env (inr tt) (Some dev_node)) /\
      children (machine s')
      = (children (machine (session_before None))
           ++ [GethDevProcess.geth_kwargs_ p])%list) /\
  _web3 (self (provider_side s'))
  = Some {| remote := Some dev_node; middleware_onion := [geth_poa_middleware];
            gas_price_strategy := None |} /\
  sent (provider_side s') = sent (provider_side (session_before None)) /\
  logged (provider_side s') = logged (provider_side (session_before None)) /\
  concurrency (self (provider_side s'))
  = concurrency (self (provider_side (session_before None))) /\
  block_page_size (self (provider_side s'))
  = block_page_size (self (provider_side (session_before None))).
Proof.
  apply (@gethdev_connect_starts_dev_node sample_tools
           (local_env (inr tt) (Some dev_node)) (session_before None) dev_node);
    reflexivity.
Defined.

(** The supervisor's [connect] when [wait_for_rpc] raises. *)
Lemma process_connect_fails (p : GethDevProcess.t) (o : os) (ipc_path : string) (e : exn) :
  GethDevProcess.is_running p = false ->
  exists o1,
    GethDevProcess.connect ipc_path (inl e) p o = (inl e, o1) /\
    children o1 = (children o ++ [GethDevProcess.geth_kwargs_ p])%list /\
    atexit o1 = atexit o.
Proof.
  intros Hr.
  unfold GethDevProcess.connect, GethDevProcess.start, GethDevProcess.log_info,
    GethDevProcess.atexit_register, bind, lift, ret.
  rewrite Hr. eexists. split; [reflexivity |]. cbn. split; reflexivity.
Qed.

(** X23: when [wait_for_rpc] raises after the child was started,
    [GethDev.connect] raises the same error and does nothing more: the
    child process is still running, no exit handler is registered for it,
    and [_process] does not point to it, so [GethDev.disconnect] will not
    stop it. *)
Theorem gethdev_connect_leaves_child_on_rpc_timeout
    (G : GethTools) (env : dev_env) (s : dev_state) (e : exn) :
  listening (provider_side s) = None ->
  GethDevProcess.is_local (host (uri_parsed env)) = true ->
  geth_on_path (machine s) = true ->
  rpc_wait env = inl e ->
  let '(r, s') := GethDevSession.connect env s in
  r = inl e /\
  (exists k,
      kw_data_dir k = dev_data_dir env /\
      children (machine s') = (children (machine s) ++ [k])%list) /\
  atexit (machine s') = atexit (machine s) /\
  _process s' = _process s.
Proof.
  intros Hl Hh Hg Hw.
  destruct (set_web3_run_alone (provider_side s) Hl) as (ws & Hs & _ & Hi & _).
  unfold GethDevSession.connect.
  rewrite (bind_ok _ (in_world_run _ s Hs)).
  set (s1 := {| provider_side := ws; machine := machine s; _process := _process s |}).
  rewrite (bind_ok _ (in_world_run BaseGethProvider.is_connected s1 Hi)).
  cbn [negb]. unfold GethDevSession._start_geth.
  match goal with
  | |- context [GethDevProcess.from_uri ?u ?d ?k] =>
      destruct (@from_uri_run G u d k (machine s) Hh Hg)
        as (p & o1 & E1 & Hd & Hr & Hkd & C1 & A1)
  end.
  subst s1. cbn [provider_side machine _process].
  set (s1 := {| provider_side := ws; machine := machine s; _process := _process s |}).
  rewrite (bind_ok _ (on_machine_run _ s1 E1)).
  destruct (process_connect_fails p o1 (dev_ipc_path env) e Hr) as (o2 & E2 & C2 & A2).
  rewrite Hw.
  set (s2 := {| provider_side := provider_side s1; machine := o1;
                _process := _process s1 |}).
  unfold bind at 1. rewrite (on_machine_run _ s2 E2).
  cbn [provider_side machine _process s2 s1].
  split; [reflexivity |].
  split; [exists (GethDevProcess.geth_kwargs_ p); rewrite C2, C1; auto |].
  split; [rewrite A2, A1; reflexivity | reflexivity].
Qed.

Lemma gethdev_connect_leaves_child_on_rpc_timeout_witness :
  let '(r, s') := GethDevSession.connect (H := sample_tools)
                    (local_env (inl (Raise ValueError "Timeout")) None)
                    (session_before None) in
  r = inl (Raise ValueError "Timeout") /\
  (exists k,
      kw_data_dir k = dev_data_dir (local_env (inl (Raise ValueError "Timeout")) None) /\
      children (machine s') = (children (machine (session_before None)) ++ [k])%list) /\
  atexit (machine s') = atexit (machine (session_before None)) /\
  _process s' = _process (session_before None).
Proof.
  apply (@gethdev_connect_leaves_child_on_rpc_timeout sample_tools
           (local_env (inl (Raise ValueError "Timeout")) None) (session_before None)
           (Raise ValueError "Timeout")); reflexivity.
Defined.

(** X24: [GethDev.disconnect] stops and cleans the supervisor it holds, if
    any, before it resets the provider: afterwards [_process] is unset, the
    data directory of the supervisor is gone, and the handle and the cached
    client version are cleared.  Without a supervisor the machine is not
    touched.  A second [disconnect] changes nothing. *)
Theorem gethdev_disconnect_settles (s : dev_state) :
  exists s',
    GethDevSession.disconnect s = (inr tt, s') /\
    _process s' = None /\
    _web3 (self (provider_side s')) = None /\
    _client_version (self (provider_side s')) = None /\
    match _process s with
    | Some p =>
        ~ In (GethDevProcess.data_dir p) (directories (machine s')) /\
        children (machine s')
        = (if GethDevProcess.is_running p then
             match GethDevProcess.proc p with
             | Some k => GethDevProcess.kill k (children (machine s))
             | None => children (machine s)
             end
           else children (machine s))
    | None => machine s' = machine s
    end /\
    GethDevSession.disconnect s' = (inr tt, s').
Proof.
  unfold GethDevSession.disconnect, GethDevSession.get_process.
  unfold bind at 2. unfold bind at 1.
  destruct (_process s) as [p |] eqn:Ep.
  - destruct (process_disconnect_settles p (machine s))
      as (p2 & o3 & E & _ & Hgone & Hkill & _).
    unfold bind at 1. rewrite (on_machine_run _ s E).
    unfold GethDevSession.now_listening, GethDevSession.set_process,
      GethDevSession.in_world, BaseGethProvider.disconnect,
      bind, get_self, put_self, ret.
    cbn [provider_side machine _process].
    eexists. split; [reflexivity |].
    cbn [provider_side machine _process self set_self _web3 _client_version
           BaseGethProvider.with_web3 BaseGethProvider.with_client_version].
    split; [reflexivity |]. split; [reflexivity |]. split; [reflexivity |].
    split; [split; [exact Hgone | exact Hkill] |].
    reflexivity.
  - unfold GethDevSession.in_world, BaseGethProvider.disconnect,
      bind, get_self, put_self, ret.
    cbn [provider_side machine _process].
    eexists. split; [reflexivity |].
    cbn [provider_side machine _process self set_self _web3 _client_version
           BaseGethProvider.with_web3 BaseGethProvider.with_client_version].
    split; [exact Ep |]. split; [reflexivity |]. split; [reflexivity |].
    split; [reflexivity |].
    rewrite Ep. reflexivity.
Qed.
